(** * Elliott-wave analyzer (elt_1210.py): swings, wave search, classification

    A shallow embedding of [ElliottWaveAnalyzer]: [_detect_swings],
    [classify_pattern] and [identify_wave].  Prices are IEEE binary64
    numbers (Rocq's primitive floats, the format of Python's [float] and of
    numpy's [float64]); a pandas Series is the list of its rows, index label
    first; exceptions are values of an error monad; the list [wave_points]
    that the search appends to is the state of a small state monad; what the
    method prints is a list of events. *)

From Stdlib Require Import String List ZArith Bool Lia Floats Sorted Permutation.
Import ListNotations.

Set Warnings "-inexact-float".

(** ** Python values *)

Module Py.

(** The exceptions the modelled code can raise. *)
Inductive exn : Type :=
| IndexError          (* pandas: positional indexer is out-of-bounds *)
| ZeroDivisionError.  (* float division by zero *)

Inductive result (A : Type) : Type :=
| Ok (a : A)
| Raise (e : exn).

Arguments Ok {A} a.
Arguments Raise {A} e.

Definition bind {A B : Type} (r : result A) (k : A -> result B) : result B :=
  match r with
  | Ok a => k a
  | Raise e => Raise e
  end.

(** A number is a built-in [float] or a numpy [float64] scalar.  Both hold
    a binary64 value; they differ in what division by zero does. *)
Inductive num : Type :=
| PyFloat (f : float)
| NpFloat (f : float).

Definition val (x : num) : float :=
  match x with
  | PyFloat f => f
  | NpFloat f => f
  end.

(** [x - y]: [float64] is a subclass of [float], so its operator wins as
    soon as one operand is a [float64]. *)
Definition sub (x y : num) : num :=
  match x, y with
  | PyFloat a, PyFloat b => PyFloat (a - b)
  | _, _ => NpFloat (val x - val y)
  end.

(** [abs(x)] *)
Definition abs (x : num) : num :=
  match x with
  | PyFloat a => PyFloat (PrimFloat.abs a)
  | NpFloat a => NpFloat (PrimFloat.abs a)
  end.

(** [y == 0] on binary64: true of both zeros, false of NaN. *)
Definition is_zero (f : float) : bool := (f =? 0)%float.

(** [x / y]: built-in floats raise [ZeroDivisionError] on a zero divisor;
    numpy (default error state) warns and returns the IEEE quotient, an
    infinity or NaN. *)
Definition div (x y : num) : result num :=
  match x, y with
  | PyFloat a, PyFloat b =>
      if is_zero b then Raise ZeroDivisionError else Ok (PyFloat (a / b))
  | _, _ => Ok (NpFloat (val x / val y))
  end.

(** [x <= y] and [x < y], as truth values. *)
Definition le (x y : num) : bool := (val x <=? val y)%float.
Definition lt (x y : num) : bool := (val x <? val y)%float.

End Py.

Import Py.

Notation "x <- r ;; k" := (bind r (fun x => k))
(at level 61, r at next level, right associativity).

(** ** Statements over a mutable state that may raise *)

Section Stmt.

Context {St : Type}.

(** A statement maps the state to the state it leaves and to its outcome;
    the state left by a statement that raises is the state at the raise. *)
Definition stmt (A : Type) : Type := St -> St * result A.

Definition skip : stmt unit := fun s => (s, Ok tt).

Definition seq_stmt (c1 c2 : stmt unit) : stmt unit :=
  fun s =>
    match c1 s with
    | (s', Ok _) => c2 s'
    | (s', Raise e) => (s', Raise e)
    end.

(** [for x in xs: body x] *)
Fixpoint for_ {I : Type} (xs : list I) (body : I -> stmt unit) : stmt unit :=
  match xs with
  | [] => skip
  | x :: xs' => seq_stmt (body x) (for_ xs' body)
  end.

(** An expression that may raise, then the statement that uses its value. *)
Definition eval {A B : Type} (r : result A) (k : A -> stmt B) : stmt B :=
  fun s =>
    match r with
    | Ok a => k a s
    | Raise e => (s, Raise e)
    end.

End Stmt.

Notation "'let!' x := r 'in' k" := (eval r (fun x => k))
  (at level 10, x name, r at level 100, k at level 200).

(** [range(a, b)] *)
Definition range (a b : nat) : list nat := seq a (b - a).

(** ** pandas Series *)

Definition timestamp : Type := Z.

(** Rows in positional order: index label, value. *)
Definition Series : Type := list (timestamp * float).

Definition index (s : Series) : list timestamp := map fst s.
Definition values (s : Series) : list float := map snd s.

(** [s.iloc[i]] for [i >= 0]: a [float64] scalar. *)
Definition iloc (s : Series) (i : nat) : result num :=
  match nth_error s i with
  | Some (_, v) => Ok (NpFloat v)
  | None => Raise IndexError
  end.

(** [s.index[i]] for [i >= 0]. *)
Definition index_at (s : Series) (i : nat) : result timestamp :=
  match nth_error s i with
  | Some (t, _) => Ok t
  | None => Raise IndexError
  end.

(** [v.shift(1)]: every value moves one row down, NaN enters at the top. *)
Definition shift_down (v : list float) : list float :=
  match v with
  | [] => []
  | _ :: _ => nan :: removelast v
  end.

(** [v.shift(-1)]: every value moves one row up, NaN enters at the bottom. *)
Definition shift_up (v : list float) : list float :=
  match v with
  | [] => []
  | _ :: v' => v' ++ [nan]
  end.

(** [a > b] and [a < b], row by row. *)
Definition gt_rows (a b : list float) : list bool :=
  map (fun xy => (snd xy <? fst xy)%float) (combine a b).

Definition lt_rows (a b : list float) : list bool :=
  map (fun xy => (fst xy <? snd xy)%float) (combine a b).

(** [m1 & m2] *)
Definition and_rows (m1 m2 : list bool) : list bool :=
  map (fun xy => fst xy && snd xy) (combine m1 m2).

(** [s[mask]]: the rows whose mask entry is true; the mask carries the
    index of [s], so it applies row by row. *)
Fixpoint select {A : Type} (s : list A) (mask : list bool) : list A :=
  match s, mask with
  | x :: s', b :: mask' => if b then x :: select s' mask' else select s' mask'
  | _, _ => []
  end.

(** [s.sort_index()]: rows by ascending label.  Rows with equal labels keep
    their order here; pandas leaves that order unspecified. *)
Fixpoint insert_row (r : timestamp * float) (s : Series) : Series :=
  match s with
  | [] => [r]
  | r' :: s' =>
      if (fst r <=? fst r')%Z then r :: r' :: s' else r' :: insert_row r s'
  end.

Fixpoint sort_index (s : Series) : Series :=
  match s with
  | [] => []
  | r :: s' => insert_row r (sort_index s')
  end.

(** ** _detect_swings (the second definition, which the class keeps) *)

Definition swing_high_mask (v : list float) : list bool :=
  and_rows (gt_rows v (shift_down v)) (gt_rows v (shift_up v)).

Definition swing_low_mask (v : list float) : list bool :=
  and_rows (lt_rows v (shift_down v)) (lt_rows v (shift_up v)).

Definition _detect_swings (prices : Series) : Series * Series :=
  let swing_highs := swing_high_mask (values prices) in
  let swing_lows := swing_low_mask (values prices) in
  let swing_highs := select prices swing_highs in
  let swing_lows := select prices swing_lows in
  let swing_highs := sort_index swing_highs in
  let swing_lows := sort_index swing_lows in
  (swing_highs, swing_lows).

(** ** Wave dictionaries *)

(** [{'price_range': (a, b), 'start_date': .., 'end_date': .., 'duration': ..}];
    a duration is a difference of index labels. *)
Record WaveSegment : Type := mkSegment {
  price_range : num * num;
  start_date : timestamp;
  end_date : timestamp;
  duration : Z
}.

(** [{'Wave_1': .., 'Wave_2': .., 'Wave_3': ..}] *)
Record WaveCandidate : Type := mkCandidate {
  Wave_1 : WaveSegment;
  Wave_2 : WaveSegment;
  Wave_3 : WaveSegment
}.

(** What [classify_pattern] may be handed: [None], [{}] or a wave dictionary. *)
Inductive wave_points_arg : Type :=
| ArgNone
| ArgEmpty
| ArgWave (w : WaveCandidate).

(** ** classify_pattern *)

Definition classify_lo : float := 0.382%float.
Definition classify_hi : float := 0.618%float.

Definition classify_pattern (wave_points : wave_points_arg) : result string :=
  match wave_points with
  | ArgNone | ArgEmpty => Ok "Insufficient Data"%string
  | ArgWave w =>
      let wave_1 := price_range (Wave_1 w) in
      let wave_2 := price_range (Wave_2 w) in
      let wave_3 := price_range (Wave_3 w) in
      let wave_1_length := Py.abs (Py.sub (snd wave_1) (fst wave_1)) in
      let wave_2_length := Py.abs (Py.sub (snd wave_2) (fst wave_2)) in
      let wave_3_length := Py.abs (Py.sub (snd wave_3) (fst wave_3)) in
      wave_2_retracement <- Py.div wave_2_length wave_1_length ;;
      let is_impulsive :=
        Py.le (PyFloat classify_lo) wave_2_retracement
        && Py.le wave_2_retracement (PyFloat classify_hi)
        && Py.lt wave_1_length wave_3_length in
      Ok (if is_impulsive then "Impulsive"%string else "Corrective"%string)
  end.

(** ** identify_wave *)

Definition search_lo : float := 0.5%float.
Definition search_hi : float := 0.618%float.

Definition append (w : WaveCandidate) : stmt (St := list WaveCandidate) unit :=
  fun wave_points => (wave_points ++ [w], Ok tt).

(** The body of the inner loop.  Each index label is read once here; the
    source reads the same immutable Series again when it builds the
    dictionary. *)
Definition search_body (swing_highs swing_lows : Series) (i j : nat)
  : stmt (St := list WaveCandidate) unit :=
  let! wave_1_low := iloc swing_lows i in
  let! wave_1_high := iloc swing_highs (j - 1) in
  let! wave_2_low := iloc swing_lows j in
  let! t_low_i := index_at swing_lows i in
  let! t_high_j1 := index_at swing_highs (j - 1) in
  let! t_low_j := index_at swing_lows j in
  if ((t_low_i <? t_high_j1)%Z && (t_high_j1 <? t_low_j)%Z)%bool then
    let wave_1_length := Py.sub wave_1_high wave_1_low in
    let! quotient := Py.div (Py.sub wave_2_low wave_1_high) wave_1_length in
    let wave_2_retracement := Py.abs quotient in
    if (j <? length swing_highs)%nat then
      let! wave_3_high := iloc swing_highs j in
      let! t_high_j := index_at swing_highs j in
      if (Py.le (PyFloat search_lo) wave_2_retracement
          && Py.le wave_2_retracement (PyFloat search_hi))%bool then
        append
          {| Wave_1 := {| price_range := (wave_1_low, wave_1_high);
                          start_date := t_low_i;
                          end_date := t_high_j1;
                          duration := (t_high_j1 - t_low_i)%Z |};
             Wave_2 := {| price_range := (wave_1_high, wave_2_low);
                          start_date := t_high_j1;
                          end_date := t_low_j;
                          duration := (t_low_j - t_high_j1)%Z |};
             Wave_3 := {| price_range := (wave_2_low, wave_3_high);
                          start_date := t_low_j;
                          end_date := t_high_j;
                          duration := (t_high_j - t_low_j)%Z |} |}
      else skip
    else skip
  else skip.

(** The two nested loops over [range(len(swing_lows) - 1)] and
    [range(i + 1, len(swing_highs))]. *)
Definition search (swing_highs swing_lows : Series)
  : stmt (St := list WaveCandidate) unit :=
  for_ (range 0 (length swing_lows - 1)) (fun i =>
    for_ (range (i + 1) (length swing_highs)) (fun j =>
      search_body swing_highs swing_lows i j)).

(** What the method prints, one event per group of [print] calls. *)
Inductive event : Type :=
| PrintNoValid                                  (* "No valid Elliott Wave patterns found." *)
| PrintLatest                                   (* "Latest Elliott Wave Identified:" *)
| PrintWave (name : string) (w : WaveSegment)   (* name, price range, dates, duration *)
| PrintClassification (label : string)          (* "Pattern Classification:" label *)
| PrintError (e : exn).                         (* error type, message and traceback *)

(** The body of the [try] block on [self.data['Close']]: what it printed
    and how it left, by [return] of a value or by an exception. *)
Definition identify_wave_try (prices : Series)
  : list event * result (option WaveCandidate) :=
  let (swing_highs, swing_lows) := _detect_swings prices in
  match search swing_highs swing_lows [] with
  | (_, Raise e) => ([], Raise e)
  | (wave_points, Ok _) =>
      match rev wave_points with
      | [] => ([PrintNoValid], Ok None)
      | latest_wave :: _ =>
          let out :=
            [PrintLatest;
             PrintWave "Wave_1" (Wave_1 latest_wave);
             PrintWave "Wave_2" (Wave_2 latest_wave);
             PrintWave "Wave_3" (Wave_3 latest_wave)] in
          match classify_pattern (ArgWave latest_wave) with
          | Raise e => (out, Raise e)
          | Ok pattern_type =>
              (out ++ [PrintClassification pattern_type], Ok (Some latest_wave))
          end
      end
  end.

(** [except Exception as e]: print the error, return [None]. *)
Definition identify_wave (prices : Series) : list event * option WaveCandidate :=
  match identify_wave_try prices with
  | (out, Ok r) => (out, r)
  | (out, Raise e) => (out ++ [PrintError e], None)
  end.

(** ** The enumeration the search performs, as a list comprehension *)

(** The candidate that the pair [(i, j)] contributes, if it passes both
    gates: rows [lows[i]], [highs[j-1]], [lows[j]] and [highs[j]]. *)
Definition candidate_at (swing_highs swing_lows : Series) (i j : nat)
  : option WaveCandidate :=
  match nth_error swing_lows i, nth_error swing_highs (j - 1),
        nth_error swing_lows j, nth_error swing_highs j with
  | Some (t1, low1), Some (t2, high1), Some (t3, low2), Some (t4, high2) =>
      let r := PrimFloat.abs ((low2 - high1) / (high1 - low1)) in
      if ((t1 <? t2)%Z && (t2 <? t3)%Z
          && ((search_lo <=? r)%float && (r <=? search_hi)%float))%bool
      then
        Some {| Wave_1 := mkSegment (NpFloat low1, NpFloat high1) t1 t2 (t2 - t1);
                Wave_2 := mkSegment (NpFloat high1, NpFloat low2) t2 t3 (t3 - t2);
                Wave_3 := mkSegment (NpFloat low2, NpFloat high2) t3 t4 (t4 - t3) |}
      else None
  | _, _, _, _ => None
  end.

Definition opt_list {A : Type} (o : option A) : list A :=
  match o with
  | Some a => [a]
  | None => []
  end.

(** All pairs in the order of the nested loops. *)
Definition candidates (swing_highs swing_lows : Series) : list WaveCandidate :=
  flat_map (fun i =>
    flat_map (fun j => opt_list (candidate_at swing_highs swing_lows i j))
             (range (i + 1) (length swing_highs)))
    (range 0 (length swing_lows - 1)).

(** The ratio the search gates on, recomputed from a candidate's prices:
    [abs((wave_2_low - wave_1_high) / (wave_1_high - wave_1_low))]. *)
Definition search_retracement (w : WaveCandidate) : result num :=
  let wave_1_low := fst (price_range (Wave_1 w)) in
  let wave_1_high := snd (price_range (Wave_1 w)) in
  let wave_2_low := snd (price_range (Wave_2 w)) in
  quotient <- Py.div (Py.sub wave_2_low wave_1_high) (Py.sub wave_1_high wave_1_low) ;;
  Ok (Py.abs quotient).

(** The classifier's divisor, [abs(wave_1[1] - wave_1[0])]. *)
Definition wave_1_length (w : WaveCandidate) : num :=
  Py.abs (Py.sub (snd (price_range (Wave_1 w))) (fst (price_range (Wave_1 w)))).

Definition wave_2_length (w : WaveCandidate) : num :=
  Py.abs (Py.sub (snd (price_range (Wave_2 w))) (fst (price_range (Wave_2 w)))).

Definition wave_3_length (w : WaveCandidate) : num :=
  Py.abs (Py.sub (snd (price_range (Wave_3 w))) (fst (price_range (Wave_3 w)))).

Definition is_py (x : num) : bool :=
  match x with
  | PyFloat _ => true
  | NpFloat _ => false
  end.

(** Labels strictly increasing, as pandas guarantees of the fetched data. *)
Fixpoint strictly_increasing (l : list timestamp) : bool :=
  match l with
  | a :: (b :: _) as l' => (a <? b)%Z && strictly_increasing l'
  | _ => true
  end.

(** The price at row [i]; NaN outside the series. *)
Definition price_at (prices : Series) (i : nat) : float :=
  nth i (values prices) nan.

(** Binary64 values that are an infinity or NaN, and those that are finite
    and not zero. *)
Definition unbounded (f : float) : Prop :=
  Prim2SF f = S754_nan \/ exists s, Prim2SF f = S754_infinity s.

Definition finite (f : float) : Prop :=
  exists s m e, Prim2SF f = S754_finite s m e.

(** ** Sample inputs *)

(** Closing prices on consecutive days, labelled 0, 1, 2, ... *)
Definition daily (closes : list float) : Series :=
  combine (map Z.of_nat (seq 0 (length closes))) closes.

(** Highs and lows alternate, a high first: highs on days 1, 3, 5 and lows
    on days 2, 4, 6. *)
Definition high_first : Series :=
  daily [1; 10; 5; 15; 8; 20; 9; 12]%float.

(** A low first, and a flat stretch between the last two highs: lows on
    days 1, 3 and highs on days 2, 4, 7. *)
Definition more_highs : Series :=
  daily [10; 5; 15; 9; 16; 12; 12; 17; 11]%float.

(** Two lows and two highs, the second low after the second high. *)
Definition two_each : Series :=
  daily [10; 5; 15; 12; 12; 16; 9; 11]%float.

(** Too short to hold a swing. *)
Definition two_days : Series := daily [3; 7]%float.

Definition np_segment (a b : float) : WaveSegment :=
  mkSegment (NpFloat a, NpFloat b) 0%Z 1%Z 1%Z.

Definition py_segment (a b : float) : WaveSegment :=
  mkSegment (PyFloat a, PyFloat b) 0%Z 1%Z 1%Z.

(** Wave 1 from 100 to 200, Wave 2 back to 150, Wave 3 up to 400. *)
Definition scenario_np : WaveCandidate :=
  mkCandidate (np_segment 100 200) (np_segment 200 150) (np_segment 150 400).

Definition scenario_py : WaveCandidate :=
  mkCandidate (py_segment 100 200) (py_segment 200 150) (py_segment 150 400).

(** Wave 1 from 100 to 100. *)
Definition flat_wave_1_np : WaveCandidate :=
  mkCandidate (np_segment 100 100) (np_segment 100 50) (np_segment 50 400).

Definition flat_wave_1_py : WaveCandidate :=
  mkCandidate (py_segment 100 100) (py_segment 100 50) (py_segment 50 400).

(** The candidate of [more_highs] for the pair [(0, 1)]. *)
Definition more_highs_wave : WaveCandidate :=
  {| Wave_1 := mkSegment (NpFloat 5, NpFloat 15) 1%Z 2%Z 1%Z;
     Wave_2 := mkSegment (NpFloat 15, NpFloat 9) 2%Z 3%Z 1%Z;
     Wave_3 := mkSegment (NpFloat 9, NpFloat 16) 3%Z 4%Z 1%Z |}.

(** The candidate of [high_first] for the pair [(0, 2)]. *)
Definition high_first_wave : WaveCandidate :=
  {| Wave_1 := mkSegment (NpFloat 5, NpFloat 15) 2%Z 3%Z 1%Z;
     Wave_2 := mkSegment (NpFloat 15, NpFloat 9) 3%Z 6%Z 3%Z;
     Wave_3 := mkSegment (NpFloat 9, NpFloat 20) 6%Z 5%Z (-1)%Z |}.

(** The candidate of [two_each] for the pair [(0, 1)]. *)
Definition two_each_wave : WaveCandidate :=
  {| Wave_1 := mkSegment (NpFloat 5, NpFloat 15) 1%Z 2%Z 1%Z;
     Wave_2 := mkSegment (NpFloat 15, NpFloat 9) 2%Z 6%Z 4%Z;
     Wave_3 := mkSegment (NpFloat 9, NpFloat 16) 6%Z 5%Z (-1)%Z |}.

(** ** The rest of the class *)

(** The first [_detect_swings] of the class body, which the second one
    replaces: the same masks, and no [sort_index]. *)
Definition _detect_swings_first (prices : Series) : Series * Series :=
  let swing_highs := swing_high_mask (values prices) in
  let swing_lows := swing_low_mask (values prices) in
  (select prices swing_highs, select prices swing_lows).

(** [_fibonacci_retracement]: [high - (high - low) * level]. *)
Definition _fibonacci_retracement (high low level : float) : float :=
  (high - (high - low) * level)%float.

(** A price column that never falls from one row to the next, and one that
    never rises. *)
Fixpoint never_falls (v : list float) : bool :=
  match v with
  | a :: (b :: _) as v' => negb (b <? a)%float && never_falls v'
  | _ => true
  end.

Fixpoint never_rises (v : list float) : bool :=
  match v with
  | a :: (b :: _) as v' => negb (a <? b)%float && never_rises v'
  | _ => true
  end.

(** Six days that hold a wave: lows on days 1 and 3, highs on days 2 and 4. *)
Definition six_days : Series := daily [10; 5; 15; 9; 16; 11]%float.

(** Rising closes. *)
Definition rising : Series := daily [1; 2; 2; 3; 5]%float.

(** Every low comes before the high of the same position: [lows[k]] is
    earlier than [highs[k]], wherever both exist. *)
Definition lows_lead (swing_highs swing_lows : Series) : bool :=
  forallb (fun lh => (fst (fst lh) <? fst (snd lh))%Z)
          (combine swing_lows swing_highs).

(** Three lows (days 1, 3, 5) and three highs (days 2, 4, 6); the pairs
    [(0, 1)] and [(1, 2)] pass both gates. *)
Definition two_waves : Series := daily [10; 5; 15; 9; 19; 13; 25; 20]%float.

Definition two_waves_first : WaveCandidate :=
  {| Wave_1 := mkSegment (NpFloat 5, NpFloat 15) 1%Z 2%Z 1%Z;
     Wave_2 := mkSegment (NpFloat 15, NpFloat 9) 2%Z 3%Z 1%Z;
     Wave_3 := mkSegment (NpFloat 9, NpFloat 19) 3%Z 4%Z 1%Z |}.

Definition two_waves_latest : WaveCandidate :=
  {| Wave_1 := mkSegment (NpFloat 9, NpFloat 19) 3%Z 4%Z 1%Z;
     Wave_2 := mkSegment (NpFloat 19, NpFloat 13) 4%Z 5%Z 1%Z;
     Wave_3 := mkSegment (NpFloat 13, NpFloat 25) 5%Z 6%Z 1%Z |}.

(** ** Binary64 facts *)

Section Binary64.

Lemma SFcompare_antisym (a b : spec_float) :
  SFcompare b a = option_map CompOpp (SFcompare a b).
Proof.
  destruct a as [sa|sa| |sa ma ea], b as [sb|sb| |sb mb eb]; simpl; try reflexivity;
    try (destruct sa; reflexivity); try (destruct sb; reflexivity);
    try (destruct sa, sb; reflexivity).
  destruct sa, sb; simpl; try reflexivity;
    rewrite (Z.compare_antisym ea eb); destruct (ea ?= eb)%Z eqn:E; simpl;
    try reflexivity;
    rewrite (Pos.compare_cont_antisym ma mb Eq); reflexivity.
Qed.

Lemma ltb_asym (x y : float) : (x <? y)%float = true -> (y <? x)%float = false.
Proof.
  rewrite !ltb_spec. unfold SFltb.
  rewrite (SFcompare_antisym (Prim2SF x) (Prim2SF y)).
  destruct (SFcompare (Prim2SF x) (Prim2SF y)) as [[]|]; simpl; congruence.
Qed.

Lemma ltb_nan_l (x : float) : (nan <? x)%float = false.
Proof. rewrite ltb_spec. reflexivity. Qed.

Lemma ltb_nan_r (x : float) : (x <? nan)%float = false.
Proof.
  rewrite ltb_spec. unfold SFltb.
  change (Prim2SF nan) with S754_nan.
  destruct (Prim2SF x); reflexivity.
Qed.

(** [f == 0] holds of the two zeros only. *)
Lemma is_zero_spec (f : float) :
  is_zero f = true <-> exists s, Prim2SF f = S754_zero s.
Proof.
  unfold is_zero. rewrite eqb_spec. unfold SFeqb.
  change (Prim2SF 0) with (S754_zero false).
  destruct (Prim2SF f) as [s|s| |s m e]; simpl.
  - split; eauto.
  - destruct s; split; try discriminate; intros [s' H]; discriminate.
  - split; try discriminate; intros [s' H]; discriminate.
  - destruct s; split; try discriminate; intros [s' H]; discriminate.
Qed.

Lemma is_zero_abs (f : float) : is_zero (PrimFloat.abs f) = is_zero f.
Proof.
  unfold is_zero. rewrite !eqb_spec, abs_spec. unfold SFeqb.
  change (Prim2SF 0) with (S754_zero false).
  destruct (Prim2SF f) as [s|s| |s m e]; simpl; try reflexivity; destruct s; reflexivity.
Qed.

(** A quotient by zero is an infinity or NaN. *)
Lemma div_by_zero_unbounded (x y : float) :
  is_zero y = true -> unbounded (x / y).
Proof.
  intros [s Hy]%is_zero_spec. unfold unbounded.
  rewrite div_spec. unfold SF64div. rewrite Hy.
  destruct (Prim2SF x) as [sx|sx| |sx mx ex]; simpl; eauto.
Qed.

Lemma abs_unbounded (q : float) : unbounded q -> unbounded (PrimFloat.abs q).
Proof.
  unfold unbounded. rewrite abs_spec.
  intros [-> | [s ->]]; simpl; eauto.
Qed.

(** No interval with finite ends holds an infinity or NaN. *)
Lemma unbounded_outside (lo hi q : float) :
  finite lo -> finite hi -> unbounded q ->
  ((lo <=? q)%float && (q <=? hi)%float)%bool = false.
Proof.
  intros (sl & ml & el & Hlo) (sh & mh & eh & Hhi) Hq.
  rewrite !leb_spec, Hlo, Hhi. unfold SFleb.
  destruct Hq as [-> | [s ->]]; simpl; [reflexivity|].
  destruct s; simpl; try reflexivity; destruct sl; reflexivity.
Qed.

Lemma search_lo_finite : finite search_lo.
Proof. do 3 eexists. vm_compute. reflexivity. Qed.

Lemma search_hi_finite : finite search_hi.
Proof. do 3 eexists. vm_compute. reflexivity. Qed.

Lemma classify_lo_finite : finite classify_lo.
Proof. do 3 eexists. vm_compute. reflexivity. Qed.

Lemma classify_hi_finite : finite classify_hi.
Proof. do 3 eexists. vm_compute. reflexivity. Qed.

End Binary64.

(** ** Rows, masks and sorting *)

Section Rows.

Lemma nth_gt_rows (a b : list float) (i : nat) :
  length a = length b ->
  nth i (gt_rows a b) false = (nth i b nan <? nth i a nan)%float.
Proof.
  unfold gt_rows. revert b i.
  induction a as [|x a IH]; intros [|y b] i Hlen; try discriminate.
  - destruct i; reflexivity.
  - destruct i as [|i]; simpl; [reflexivity|]. apply IH. now injection Hlen.
Qed.

Lemma nth_lt_rows (a b : list float) (i : nat) :
  length a = length b ->
  nth i (lt_rows a b) false = (nth i a nan <? nth i b nan)%float.
Proof.
  unfold lt_rows. revert b i.
  induction a as [|x a IH]; intros [|y b] i Hlen; try discriminate.
  - destruct i; reflexivity.
  - destruct i as [|i]; simpl; [reflexivity|]. apply IH. now injection Hlen.
Qed.

Lemma length_gt_rows (a b : list float) :
  length a = length b -> length (gt_rows a b) = length a.
Proof.
  intros H. unfold gt_rows. rewrite length_map, length_combine. lia.
Qed.

Lemma length_lt_rows (a b : list float) :
  length a = length b -> length (lt_rows a b) = length a.
Proof.
  intros H. unfold lt_rows. rewrite length_map, length_combine. lia.
Qed.

Lemma nth_and_rows (m1 m2 : list bool) (i : nat) :
  length m1 = length m2 ->
  nth i (and_rows m1 m2) false = nth i m1 false && nth i m2 false.
Proof.
  unfold and_rows. revert m2 i.
  induction m1 as [|x m1 IH]; intros [|y m2] i Hlen; try discriminate.
  - destruct i; reflexivity.
  - destruct i as [|i]; simpl; [reflexivity|]. apply IH. now injection Hlen.
Qed.

Lemma length_shift_down (v : list float) : length (shift_down v) = length v.
Proof.
  destruct v as [|x v]; [reflexivity|].
  unfold shift_down. cbn [length].
  change (x :: v) with ([x] ++ v).
  destruct v as [|y v]; [reflexivity|].
  rewrite removelast_app by discriminate.
  cbn [app length]. f_equal.
  assert (H : forall (l : list float) a, length (removelast (a :: l)) = length l).
  { induction l as [|b l IH]; intros a; [reflexivity|].
    change (removelast (a :: b :: l)) with (a :: removelast (b :: l)).
    cbn [length]. now rewrite IH. }
  now rewrite H.
Qed.

Lemma length_shift_up (v : list float) : length (shift_up v) = length v.
Proof.
  destruct v as [|x v]; [reflexivity|].
  unfold shift_up. rewrite length_app. cbn [length]. lia.
Qed.

Lemma nth_removelast (l : list float) (k : nat) :
  S k < length l -> nth k (removelast l) nan = nth k l nan.
Proof.
  revert k. induction l as [|a l IH]; intros k Hk; [cbn in Hk; lia|].
  destruct l as [|b l]; [cbn in Hk; lia|].
  change (removelast (a :: b :: l)) with (a :: removelast (b :: l)).
  destruct k as [|k]; [reflexivity|].
  cbn [nth]. apply IH. cbn [length] in *. lia.
Qed.

(** Row [i] of [v.shift(1)] is row [i - 1] of [v], NaN at the top. *)
Lemma nth_shift_down (v : list float) (i : nat) :
  i < length v ->
  nth i (shift_down v) nan = match i with 0 => nan | S k => nth k v nan end.
Proof.
  intros Hi. destruct v as [|x v]; [cbn in Hi; lia|].
  unfold shift_down. destruct i as [|k]; [reflexivity|].
  cbn [nth]. apply nth_removelast. exact Hi.
Qed.

(** Row [i] of [v.shift(-1)] is row [i + 1] of [v], NaN at the bottom. *)
Lemma nth_shift_up (v : list float) (i : nat) :
  nth i (shift_up v) nan = nth (S i) v nan.
Proof.
  destruct v as [|x v]; [destruct i; reflexivity|].
  unfold shift_up. cbn [nth].
  destruct (Nat.lt_ge_cases i (length v)) as [H|H].
  - now rewrite app_nth1.
  - rewrite app_nth2 by exact H. rewrite (nth_overflow v) by exact H.
    destruct (i - length v) as [|[|n]]; reflexivity.
Qed.

Lemma swing_high_mask_nth (v : list float) (i : nat) :
  nth i (swing_high_mask v) false = true <->
  1 <= i /\ i + 2 <= length v
  /\ (nth (i - 1) v nan <? nth i v nan)%float = true
  /\ (nth (i + 1) v nan <? nth i v nan)%float = true.
Proof.
  unfold swing_high_mask.
  rewrite nth_and_rows
    by (rewrite !length_gt_rows; auto using length_shift_down, length_shift_up).
  rewrite !nth_gt_rows by auto using length_shift_down, length_shift_up.
  rewrite nth_shift_up, andb_true_iff.
  replace (i + 1) with (S i) by lia.
  destruct (Nat.lt_ge_cases i (length v)) as [Hi|Hi].
  - rewrite nth_shift_down by exact Hi.
    destruct i as [|k].
    + rewrite ltb_nan_l. split; [intros [? _]; discriminate|lia].
    + replace (S k - 1) with k by lia.
      destruct (Nat.lt_ge_cases (S (S k)) (length v)) as [Hk|Hk].
      * split; [intros [? ?]; repeat split; auto; lia|tauto].
      * rewrite (nth_overflow v (n := S (S k))) by lia.
        rewrite ltb_nan_l. split; [intros [_ ?]; discriminate|lia].
  - rewrite (nth_overflow v (n := i)) by lia.
    rewrite !ltb_nan_r. split; [intros [? _]; discriminate|lia].
Qed.

Lemma swing_low_mask_nth (v : list float) (i : nat) :
  nth i (swing_low_mask v) false = true <->
  1 <= i /\ i + 2 <= length v
  /\ (nth i v nan <? nth (i - 1) v nan)%float = true
  /\ (nth i v nan <? nth (i + 1) v nan)%float = true.
Proof.
  unfold swing_low_mask.
  rewrite nth_and_rows
    by (rewrite !length_lt_rows; auto using length_shift_down, length_shift_up).
  rewrite !nth_lt_rows by auto using length_shift_down, length_shift_up.
  rewrite nth_shift_up, andb_true_iff.
  replace (i + 1) with (S i) by lia.
  destruct (Nat.lt_ge_cases i (length v)) as [Hi|Hi].
  - rewrite nth_shift_down by exact Hi.
    destruct i as [|k].
    + rewrite ltb_nan_r. split; [intros [? _]; discriminate|lia].
    + replace (S k - 1) with k by lia.
      destruct (Nat.lt_ge_cases (S (S k)) (length v)) as [Hk|Hk].
      * split; [intros [? ?]; repeat split; auto; lia|tauto].
      * rewrite (nth_overflow v (n := S (S k))) by lia.
        rewrite ltb_nan_r. split; [intros [_ ?]; discriminate|lia].
  - rewrite (nth_overflow v (n := i)) by lia.
    rewrite !ltb_nan_l. split; [intros [? _]; discriminate|lia].
Qed.

Lemma In_select {A : Type} (s : list A) (mask : list bool) (x : A) :
  In x (select s mask) <->
  exists i, nth_error s i = Some x /\ nth i mask false = true.
Proof.
  revert mask. induction s as [|y s IH]; intros mask.
  - split; [intros []|intros (i & H & _); destruct i; discriminate].
  - destruct mask as [|b mask].
    + split; [intros []|intros (i & _ & H); destruct i; discriminate].
    + cbn [select]. split.
      * destruct b.
        -- intros [->|H]; [exists 0; auto|].
           apply IH in H as (i & ? & ?). exists (S i); auto.
        -- intros H. apply IH in H as (i & ? & ?). exists (S i); auto.
      * intros ([|i] & Hs & Hm); cbn in Hs, Hm.
        -- subst b. injection Hs as ->. now left.
        -- assert (In x (select s mask)) by (apply IH; eauto).
           destruct b; [now right|assumption].
Qed.

Lemma select_all_false {A : Type} (s : list A) (mask : list bool) :
  (forall i, nth i mask false = true -> False) -> select s mask = [].
Proof.
  intros H. destruct (select s mask) as [|x l] eqn:E; [reflexivity|].
  assert (Hx : In x (select s mask)) by (rewrite E; now left).
  apply In_select in Hx as (i & _ & Hi). destruct (H i Hi).
Qed.

Lemma In_insert_row (r x : timestamp * float) (s : Series) :
  In x (insert_row r s) <-> x = r \/ In x s.
Proof.
  induction s as [|r' s IH]; cbn [insert_row].
  - cbn. intuition.
  - destruct (fst r <=? fst r')%Z; cbn [In]; [intuition|].
    rewrite IH. intuition.
Qed.

Lemma In_sort_index (x : timestamp * float) (s : Series) :
  In x (sort_index s) <-> In x s.
Proof.
  induction s as [|r s IH]; [reflexivity|].
  cbn [sort_index In]. rewrite In_insert_row, IH. intuition.
Qed.

Lemma strictly_increasing_cons (a b : timestamp) (l : list timestamp) :
  strictly_increasing (a :: b :: l) = ((a <? b)%Z && strictly_increasing (b :: l)).
Proof. reflexivity. Qed.

Lemma strictly_increasing_sorted (l : list timestamp) :
  strictly_increasing l = true <-> StronglySorted Z.lt l.
Proof.
  split.
  - intros H. apply Sorted_StronglySorted; [intros x y z; apply Z.lt_trans|].
    induction l as [|a l IH]; [constructor|].
    destruct l as [|b l]; [repeat constructor|].
    rewrite strictly_increasing_cons in H.
    apply andb_true_iff in H as [H1 H2].
    constructor; [apply IH; exact H2|constructor; lia].
  - intros H%StronglySorted_Sorted.
    induction l as [|a l IH]; [reflexivity|].
    destruct l as [|b l]; [reflexivity|].
    inversion H as [|? ? Hs Hd]; subst. inversion Hd; subst.
    rewrite strictly_increasing_cons. apply andb_true_iff. split; [lia|auto].
Qed.

Lemma select_sorted (s : Series) (mask : list bool) :
  StronglySorted Z.lt (index s) -> StronglySorted Z.lt (index (select s mask)).
Proof.
  revert mask. induction s as [|r s IH]; intros mask H.
  - constructor.
  - destruct mask as [|b mask]; [constructor|].
    inversion H as [|? ? Hs Hall]; subst.
    cbn [select]. destruct b; [|auto].
    cbn. constructor; [apply IH; exact Hs|].
    apply Forall_forall. intros t Ht.
    apply in_map_iff in Ht as (row & <- & Hrow).
    apply In_select in Hrow as (i & Hi & _). apply nth_error_In in Hi.
    rewrite Forall_forall in Hall. apply Hall. now apply in_map.
Qed.

(** On labels already in strict order [sort_index] changes nothing. *)
Lemma sort_index_sorted (s : Series) :
  StronglySorted Z.lt (index s) -> sort_index s = s.
Proof.
  induction s as [|r s IH]; intros H; [reflexivity|].
  inversion H as [|? ? Hs Hall]; subst.
  cbn [sort_index]. rewrite IH by exact Hs.
  destruct s as [|r' s]; [reflexivity|].
  cbn [insert_row]. inversion Hall; subst.
  replace (fst r <=? fst r')%Z with true by (symmetry; apply Z.leb_le; lia).
  reflexivity.
Qed.

Lemma sorted_NoDup (l : list timestamp) : StronglySorted Z.lt l -> NoDup l.
Proof.
  induction 1 as [|a l Hs IH Hall]; constructor; [|exact IH].
  intros Hin. rewrite Forall_forall in Hall. specialize (Hall a Hin). lia.
Qed.

Lemma select_label (s : Series) (mask : list bool) (t : timestamp) :
  In t (index (select s mask)) ->
  exists i, nth_error (index s) i = Some t /\ nth i mask false = true.
Proof.
  intros (row & <- & Hrow)%in_map_iff.
  apply In_select in Hrow as (i & Hi & Hm). exists i. split; [|exact Hm].
  unfold index. now rewrite nth_error_map, Hi.
Qed.

Lemma select_disjoint (s : Series) (m1 m2 : list bool) :
  NoDup (index s) ->
  (forall i, nth i m1 false = true -> nth i m2 false = true -> False) ->
  forall t, In t (index (select s m1)) -> ~ In t (index (select s m2)).
Proof.
  intros Hnd Hex t (i & Hi & Hmi)%select_label (j & Hj & Hmj)%select_label.
  assert (i = j).
  { apply (proj1 (NoDup_nth_error (index s)) Hnd).
    - apply nth_error_Some. congruence.
    - congruence. }
  subst j. eauto.
Qed.

(** No row is both a swing high and a swing low. *)
Lemma swing_masks_exclusive (v : list float) (i : nat) :
  nth i (swing_high_mask v) false = true ->
  nth i (swing_low_mask v) false = true -> False.
Proof.
  intros (_ & _ & Hh & _)%swing_high_mask_nth (_ & _ & Hl & _)%swing_low_mask_nth.
  apply ltb_asym in Hh. congruence.
Qed.

End Rows.

(** ** The nested loops *)

Section Loops.

Context {St I : Type}.

Lemma for_app (xs ys : list I) (body : I -> stmt (St := St) unit) (s : St) :
  for_ (xs ++ ys) body s =
  match for_ xs body s with
  | (s', Ok _) => for_ ys body s'
  | (s', Raise e) => (s', Raise e)
  end.
Proof.
  revert s. induction xs as [|x xs IH]; intros s; [reflexivity|].
  cbn [app for_]. unfold seq_stmt.
  destruct (body x s) as [s' [[]|e]]; [apply IH|reflexivity].
Qed.

(** A property of the state that every iteration keeps holds when the loop
    leaves, normally or not. *)
Lemma for_invariant (P : St -> Prop) (xs : list I)
      (body : I -> stmt (St := St) unit) :
  (forall x s, P s -> P (fst (body x s))) ->
  forall s, P s -> P (fst (for_ xs body s)).
Proof.
  intros Hbody. induction xs as [|x xs IH]; intros s Hs; [exact Hs|].
  cbn [for_]. unfold seq_stmt.
  specialize (Hbody x s Hs).
  destruct (body x s) as [s' [[]|e]]; cbn in *; auto.
Qed.

End Loops.

Section Appending.

Context {I A : Type}.

(** A loop whose iterations only append, and never raise, appends the
    concatenation of what they append. *)
Lemma for_appends (f : I -> list A) (xs : list I)
      (body : I -> stmt (St := list A) unit) :
  (forall x s, In x xs -> body x s = (s ++ f x, Ok tt)) ->
  forall s, for_ xs body s = (s ++ flat_map f xs, Ok tt).
Proof.
  induction xs as [|x xs IH]; intros Hbody s.
  - cbn. now rewrite app_nil_r.
  - cbn [for_ flat_map]. unfold seq_stmt.
    rewrite Hbody by now left.
    rewrite IH by (intros; apply Hbody; now right).
    now rewrite app_assoc.
Qed.

End Appending.

Section Search.

Variables swing_highs swing_lows : Series.

(** One iteration: an [IndexError] when one of the three rows read first is
    missing, otherwise the candidate of the pair, if any, is appended. *)
Lemma search_body_run (i j : nat) (wave_points : list WaveCandidate) :
  search_body swing_highs swing_lows i j wave_points =
  match nth_error swing_lows i, nth_error swing_highs (j - 1),
        nth_error swing_lows j with
  | Some _, Some _, Some _ =>
      (wave_points ++ opt_list (candidate_at swing_highs swing_lows i j), Ok tt)
  | _, _, _ => (wave_points, Raise IndexError)
  end.
Proof.
  unfold search_body, candidate_at, iloc, index_at, eval.
  destruct (nth_error swing_lows i) as [[t1 low1]|]; [|reflexivity].
  destruct (nth_error swing_highs (j - 1)) as [[t2 high1]|]; [|reflexivity].
  destruct (nth_error swing_lows j) as [[t3 low2]|]; [|reflexivity].
  destruct ((t1 <? t2)%Z && (t2 <? t3)%Z) eqn:Hchrono; cbn [andb].
  - cbn [Py.div Py.sub Py.abs val Py.le].
    destruct (Nat.ltb_spec j (length swing_highs)) as [Hj|Hj].
    + destruct (nth_error swing_highs j) as [[t4 high2]|] eqn:E4.
      * unfold Py.le. cbn [val].
        match goal with
        | |- context [if ?b then append _ else skip] => destruct b
        end; unfold skip, append; cbn [opt_list];
          [reflexivity|now rewrite app_nil_r].
      * apply nth_error_None in E4. lia.
    + apply nth_error_None in Hj. rewrite Hj. cbn. now rewrite app_nil_r.
  - destruct (nth_error swing_highs j) as [[t4 high2]|];
      cbn; now rewrite app_nil_r.
Qed.

(** What [candidate_at] returns, spelled out. *)
Lemma candidate_at_inv (i j : nat) (w : WaveCandidate) :
  candidate_at swing_highs swing_lows i j = Some w ->
  exists t1 low1 t2 high1 t3 low2 t4 high2,
    nth_error swing_lows i = Some (t1, low1)
    /\ nth_error swing_highs (j - 1) = Some (t2, high1)
    /\ nth_error swing_lows j = Some (t3, low2)
    /\ nth_error swing_highs j = Some (t4, high2)
    /\ (t1 < t2 < t3)%Z
    /\ (let r := PrimFloat.abs ((low2 - high1) / (high1 - low1)) in
        (search_lo <=? r)%float = true /\ (r <=? search_hi)%float = true)
    /\ w = {| Wave_1 := mkSegment (NpFloat low1, NpFloat high1) t1 t2 (t2 - t1);
              Wave_2 := mkSegment (NpFloat high1, NpFloat low2) t2 t3 (t3 - t2);
              Wave_3 := mkSegment (NpFloat low2, NpFloat high2) t3 t4 (t4 - t3) |}.
Proof.
  unfold candidate_at.
  destruct (nth_error swing_lows i) as [[t1 low1]|]; [|discriminate].
  destruct (nth_error swing_highs (j - 1)) as [[t2 high1]|]; [|discriminate].
  destruct (nth_error swing_lows j) as [[t3 low2]|]; [|discriminate].
  destruct (nth_error swing_highs j) as [[t4 high2]|]; [|discriminate].
  cbv zeta.
  destruct (_ && _) eqn:E; [|discriminate].
  intros [= <-].
  apply andb_true_iff in E as [E1 E2].
  apply andb_true_iff in E1 as [E1 E1'].
  apply andb_true_iff in E2 as [E2 E2'].
  exists t1, low1, t2, high1, t3, low2, t4, high2.
  repeat split; auto; lia.
Qed.

(** Whatever the search has appended when it leaves, normally or by an
    exception, is the candidate of some pair. *)
Lemma search_emits (wave_points0 : list WaveCandidate) (w : WaveCandidate) :
  In w (fst (search swing_highs swing_lows wave_points0)) ->
  In w wave_points0
  \/ exists i j, candidate_at swing_highs swing_lows i j = Some w.
Proof.
  set (P := fun wps : list WaveCandidate =>
              forall w, In w wps ->
                In w wave_points0
                \/ exists i j, candidate_at swing_highs swing_lows i j = Some w).
  revert w. change (P (fst (search swing_highs swing_lows wave_points0))).
  unfold search. apply for_invariant; [|intros w Hw; now left].
  intros i s Hs. apply for_invariant; [|exact Hs].
  intros j s' Hs'. rewrite search_body_run.
  destruct (nth_error swing_lows i); [|exact Hs'].
  destruct (nth_error swing_highs (j - 1)); [|exact Hs'].
  destruct (nth_error swing_lows j); [|exact Hs'].
  cbn [fst]. intros w [Hw|Hw]%in_app_or; [now apply Hs'|].
  right. exists i, j.
  destruct (candidate_at swing_highs swing_lows i j); cbn in Hw; intuition congruence.
Qed.

Lemma In_range (a b x : nat) : In x (range a b) <-> a <= x < b.
Proof. unfold range. rewrite in_seq. lia. Qed.

(** With no more highs than lows, or fewer than two lows, every row the
    loops read exists: the search appends [candidates] and returns. *)
Lemma search_completes (wave_points : list WaveCandidate) :
  length swing_lows < 2 \/ length swing_highs <= length swing_lows ->
  search swing_highs swing_lows wave_points =
  (wave_points ++ candidates swing_highs swing_lows, Ok tt).
Proof.
  intros Hlen. unfold search, candidates.
  apply for_appends. intros i s Hi%In_range.
  apply for_appends. intros j s' Hj%In_range.
  rewrite search_body_run.
  destruct (nth_error swing_lows i) eqn:E1;
    [|apply nth_error_None in E1; lia].
  destruct (nth_error swing_highs (j - 1)) eqn:E2;
    [|apply nth_error_None in E2; lia].
  destruct (nth_error swing_lows j) eqn:E3;
    [|apply nth_error_None in E3; lia].
  reflexivity.
Qed.

(** With more highs than lows, and at least two lows, the first pass of the
    inner loop reads [swing_lows.iloc[len(swing_lows)]]. *)
Lemma search_index_fault (wave_points : list WaveCandidate) :
  2 <= length swing_lows < length swing_highs ->
  search swing_highs swing_lows wave_points =
  (wave_points
     ++ flat_map (fun j => opt_list (candidate_at swing_highs swing_lows 0 j))
                 (range 1 (length swing_lows)),
   Raise IndexError).
Proof.
  intros [HL HH]. unfold search.
  set (L := length swing_lows) in *. set (H := length swing_highs) in *.
  assert (Hout : range 0 (L - 1) = 0 :: range 1 (L - 1)).
  { unfold range. replace (L - 1 - 0) with (S (L - 1 - 1)) by lia. reflexivity. }
  assert (Hin : range (0 + 1) H = range 1 L ++ L :: range (S L) H).
  { unfold range. replace (H - (0 + 1)) with ((L - 1) + S (H - S L)) by lia.
    rewrite seq_app. cbn [seq]. repeat f_equal; lia. }
  rewrite Hout. cbn [for_]. unfold seq_stmt at 1.
  rewrite Hin, for_app.
  rewrite (for_appends
             (fun j => opt_list (candidate_at swing_highs swing_lows 0 j))).
  - cbn [for_]. unfold seq_stmt at 1. rewrite search_body_run.
    destruct (nth_error swing_lows 0) eqn:E1;
      [|apply nth_error_None in E1; fold L in E1; lia].
    destruct (nth_error swing_highs (L - 1)) eqn:E2;
      [|apply nth_error_None in E2; fold H in E2; lia].
    assert (E3 : nth_error swing_lows L = None)
      by (apply nth_error_None; fold L; lia).
    rewrite E3. reflexivity.
  - intros j s Hj%In_range. rewrite search_body_run.
    destruct (nth_error swing_lows 0) eqn:E1;
      [|apply nth_error_None in E1; fold L in E1; lia].
    destruct (nth_error swing_highs (j - 1)) eqn:E2;
      [|apply nth_error_None in E2; fold H in E2; lia].
    destruct (nth_error swing_lows j) eqn:E3;
      [|apply nth_error_None in E3; fold L in E3; lia].
    reflexivity.
Qed.

End Search.

(** ** Swing detection *)

Lemma In_swing_highs (prices : Series) (row : timestamp * float) :
  In row (fst (_detect_swings prices)) <->
  exists i, nth_error prices i = Some row
            /\ nth i (swing_high_mask (values prices)) false = true.
Proof. cbn [_detect_swings fst]. now rewrite In_sort_index, In_select. Qed.

Lemma In_swing_lows (prices : Series) (row : timestamp * float) :
  In row (snd (_detect_swings prices)) <->
  exists i, nth_error prices i = Some row
            /\ nth i (swing_low_mask (values prices)) false = true.
Proof. cbn [_detect_swings snd]. now rewrite In_sort_index, In_select. Qed.

(** C4: a row is among the swing highs exactly when it sits at an index [i]
    with [1 <= i <= n - 2] whose price is strictly greater than the prices
    at [i - 1] and [i + 1], and among the swing lows exactly when it is
    strictly less than both; the mask entries of the first and the last row
    are false, so those rows are never selected; a series of fewer than
    three rows yields two empty sequences. *)
Theorem detect_swings_classifies (prices : Series) :
  let n := length prices in
  let highs := fst (_detect_swings prices) in
  let lows := snd (_detect_swings prices) in
  (forall row, In row highs <->
     exists i, 1 <= i /\ i + 2 <= n /\ nth_error prices i = Some row
       /\ (price_at prices (i - 1) <? price_at prices i)%float = true
       /\ (price_at prices (i + 1) <? price_at prices i)%float = true)
  /\ (forall row, In row lows <->
     exists i, 1 <= i /\ i + 2 <= n /\ nth_error prices i = Some row
       /\ (price_at prices i <? price_at prices (i - 1))%float = true
       /\ (price_at prices i <? price_at prices (i + 1))%float = true)
  /\ nth 0 (swing_high_mask (values prices)) false = false
  /\ nth 0 (swing_low_mask (values prices)) false = false
  /\ nth (n - 1) (swing_high_mask (values prices)) false = false
  /\ nth (n - 1) (swing_low_mask (values prices)) false = false
  /\ (n < 3 -> highs = [] /\ lows = []).
Proof.
  intros n highs lows.
  assert (Hn : length (values prices) = n) by apply length_map.
  assert (Hhigh : forall i,
    nth i (swing_high_mask (values prices)) false = true <->
    1 <= i /\ i + 2 <= n
    /\ (price_at prices (i - 1) <? price_at prices i)%float = true
    /\ (price_at prices (i + 1) <? price_at prices i)%float = true).
  { intros i. rewrite swing_high_mask_nth, Hn. reflexivity. }
  assert (Hlow : forall i,
    nth i (swing_low_mask (values prices)) false = true <->
    1 <= i /\ i + 2 <= n
    /\ (price_at prices i <? price_at prices (i - 1))%float = true
    /\ (price_at prices i <? price_at prices (i + 1))%float = true).
  { intros i. rewrite swing_low_mask_nth, Hn. reflexivity. }
  assert (Hoff : forall (m : list bool) i,
    (nth i m false = true -> 1 <= i /\ i + 2 <= n) ->
    i = 0 \/ i = n - 1 -> nth i m false = false).
  { intros m i H Hi. destruct (nth i m false); [|reflexivity].
    specialize (H eq_refl). lia. }
  repeat split.
  - intros (i & Hrow & Hm)%In_swing_highs. apply Hhigh in Hm. exists i. tauto.
  - intros (i & H1 & H2 & Hrow & H3 & H4). apply In_swing_highs.
    exists i. split; [exact Hrow|]. apply Hhigh. tauto.
  - intros (i & Hrow & Hm)%In_swing_lows. apply Hlow in Hm. exists i. tauto.
  - intros (i & H1 & H2 & Hrow & H3 & H4). apply In_swing_lows.
    exists i. split; [exact Hrow|]. apply Hlow. tauto.
  - apply Hoff; [intros H%Hhigh; tauto|now left].
  - apply Hoff; [intros H%Hlow; tauto|now left].
  - apply Hoff; [intros H%Hhigh; tauto|now right].
  - apply Hoff; [intros H%Hlow; tauto|now right].
  - subst highs. cbn [_detect_swings fst].
    rewrite select_all_false; [reflexivity|]. intros i Hi%Hhigh. lia.
  - subst lows. cbn [_detect_swings snd].
    rewrite select_all_false; [reflexivity|]. intros i Hi%Hlow. lia.
Qed.

Lemma detect_swings_classifies_witness :
  length two_days < 3
  /\ fst (_detect_swings two_days) = [] /\ snd (_detect_swings two_days) = [].
Proof.
  split; [vm_compute; lia|].
  apply (detect_swings_classifies two_days). vm_compute. lia.
Defined.

(** C7: on a series whose timestamps are strictly increasing, each of the
    two swing sequences is strictly increasing in timestamp and no timestamp
    is in both. *)
Theorem detect_swings_ordered_disjoint (prices : Series) :
  strictly_increasing (index prices) = true ->
  let highs := fst (_detect_swings prices) in
  let lows := snd (_detect_swings prices) in
  strictly_increasing (index highs) = true
  /\ strictly_increasing (index lows) = true
  /\ (forall t, In t (index highs) -> ~ In t (index lows)).
Proof.
  intros Hinc%strictly_increasing_sorted highs lows.
  subst highs lows. cbn [_detect_swings fst snd].
  pose proof (select_sorted prices (swing_high_mask (values prices)) Hinc) as Hh.
  pose proof (select_sorted prices (swing_low_mask (values prices)) Hinc) as Hl.
  rewrite !sort_index_sorted by assumption.
  repeat split; try (apply strictly_increasing_sorted; assumption).
  apply select_disjoint; [now apply sorted_NoDup|].
  apply swing_masks_exclusive.
Qed.

Lemma detect_swings_ordered_disjoint_witness :
  strictly_increasing (index high_first) = true
  /\ strictly_increasing (index (fst (_detect_swings high_first))) = true
  /\ strictly_increasing (index (snd (_detect_swings high_first))) = true
  /\ (forall t, In t (index (fst (_detect_swings high_first))) ->
                ~ In t (index (snd (_detect_swings high_first)))).
Proof.
  split; [vm_compute; reflexivity|].
  apply (detect_swings_ordered_disjoint high_first). vm_compute. reflexivity.
Defined.

(** ** Classification *)

Lemma val_sub (x y : num) : val (Py.sub x y) = (val x - val y)%float.
Proof. destruct x, y; reflexivity. Qed.

Lemma val_abs (x : num) : val (Py.abs x) = PrimFloat.abs (val x).
Proof. destruct x; reflexivity. Qed.

Lemma div_cases (x y : num) :
  Py.div x y =
  if is_py x && is_py y
  then if is_zero (val y) then Raise ZeroDivisionError
       else Ok (PyFloat (val x / val y))
  else Ok (NpFloat (val x / val y)).
Proof. destruct x, y; reflexivity. Qed.

(** [classify_pattern] on a wave dictionary, by the kind of its numbers. *)
Lemma classify_pattern_wave (w : WaveCandidate) :
  classify_pattern (ArgWave w) =
  let retr2 := (val (wave_2_length w) / val (wave_1_length w))%float in
  if is_py (wave_2_length w) && is_py (wave_1_length w)
     && is_zero (val (wave_1_length w))
  then Raise ZeroDivisionError
  else Ok (if (classify_lo <=? retr2)%float && (retr2 <=? classify_hi)%float
              && (val (wave_1_length w) <? val (wave_3_length w))%float
           then "Impulsive"%string else "Corrective"%string).
Proof.
  unfold classify_pattern.
  change (Py.abs (Py.sub (snd (price_range (Wave_1 w))) (fst (price_range (Wave_1 w)))))
    with (wave_1_length w).
  change (Py.abs (Py.sub (snd (price_range (Wave_2 w))) (fst (price_range (Wave_2 w)))))
    with (wave_2_length w).
  change (Py.abs (Py.sub (snd (price_range (Wave_3 w))) (fst (price_range (Wave_3 w)))))
    with (wave_3_length w).
  cbv zeta. rewrite div_cases.
  destruct (is_py (wave_2_length w) && is_py (wave_1_length w)); cbn [andb bind].
  - destruct (is_zero (val (wave_1_length w))); reflexivity.
  - reflexivity.
Qed.

(** C5: when Wave 1 has a nonzero length, [classify_pattern] answers
    "Impulsive" if the ratio of the Wave 2 length to the Wave 1 length lies
    in [0.382, 0.618] and Wave 3 is longer than Wave 1, and "Corrective"
    otherwise; [None] and the empty dictionary give "Insufficient Data";
    Wave 1 (100, 200), Wave 2 down to 150, Wave 3 (150, 400) is
    "Impulsive". *)
Theorem classify_pattern_labels :
  (forall w : WaveCandidate,
     is_zero (val (wave_1_length w)) = false ->
     let retr2 := (val (wave_2_length w) / val (wave_1_length w))%float in
     classify_pattern (ArgWave w) =
     Ok (if (classify_lo <=? retr2)%float && (retr2 <=? classify_hi)%float
            && (val (wave_1_length w) <? val (wave_3_length w))%float
         then "Impulsive"%string else "Corrective"%string))
  /\ classify_pattern ArgNone = Ok "Insufficient Data"%string
  /\ classify_pattern ArgEmpty = Ok "Insufficient Data"%string
  /\ classify_pattern (ArgWave scenario_np) = Ok "Impulsive"%string
  /\ classify_pattern (ArgWave scenario_py) = Ok "Impulsive"%string.
Proof.
  repeat split; try reflexivity.
  intros w Hz. rewrite classify_pattern_wave. cbv zeta.
  now rewrite Hz, andb_false_r.
Qed.

Lemma classify_pattern_labels_witness :
  is_zero (val (wave_1_length scenario_py)) = false
  /\ classify_pattern (ArgWave scenario_py) = Ok "Impulsive"%string.
Proof.
  split; [vm_compute; reflexivity|].
  rewrite (proj1 classify_pattern_labels scenario_py); vm_compute; reflexivity.
Defined.

(** C9, as the code has it: when Wave 1 has zero length, built-in floats
    raise the interpreter's own [ZeroDivisionError]; as soon as a numpy
    value takes part in the division the quotient is an infinity or NaN and
    the answer is "Corrective".  No error of the analyzer's own exists. *)
Theorem classify_pattern_flat_wave_1 (w : WaveCandidate) :
  is_zero (val (wave_1_length w)) = true ->
  classify_pattern (ArgWave w) =
  if is_py (wave_2_length w) && is_py (wave_1_length w)
  then Raise ZeroDivisionError
  else Ok "Corrective"%string.
Proof.
  intros Hz. rewrite classify_pattern_wave. cbv zeta.
  rewrite Hz, andb_true_r.
  destruct (is_py (wave_2_length w) && is_py (wave_1_length w)); [reflexivity|].
  rewrite (unbounded_outside classify_lo classify_hi);
    auto using classify_lo_finite, classify_hi_finite, div_by_zero_unbounded.
Qed.

Lemma classify_pattern_flat_wave_1_witness :
  is_zero (val (wave_1_length flat_wave_1_py)) = true
  /\ classify_pattern (ArgWave flat_wave_1_py) = Raise ZeroDivisionError.
Proof.
  split; [vm_compute; reflexivity|].
  rewrite (classify_pattern_flat_wave_1 flat_wave_1_py); vm_compute; reflexivity.
Defined.

(** C9 fails on numpy prices, the kind the search stores: a Wave 1 from 100
    to 100 is labelled "Corrective", and nothing is raised. *)
Lemma classify_pattern_flat_wave_1_labelled :
  is_zero (val (wave_1_length flat_wave_1_np)) = true
  /\ classify_pattern (ArgWave flat_wave_1_np) = Ok "Corrective"%string.
Proof. split; vm_compute; reflexivity. Qed.

(** ** Emitted candidates *)

(** The search gate rejects a Wave 1 of zero length. *)
Lemma gate_excludes_zero (low1 high1 low2 : float) :
  let r := PrimFloat.abs ((low2 - high1) / (high1 - low1)) in
  (search_lo <=? r)%float = true -> (r <=? search_hi)%float = true ->
  is_zero (high1 - low1) = false.
Proof.
  intros r Hlo Hhi.
  destruct (is_zero (high1 - low1)) eqn:Hz; [|reflexivity].
  assert (Hout : ((search_lo <=? r)%float && (r <=? search_hi)%float)%bool = false).
  { apply unbounded_outside;
      [apply search_lo_finite|apply search_hi_finite|].
    apply abs_unbounded, div_by_zero_unbounded, Hz. }
  rewrite Hlo, Hhi in Hout. discriminate.
Qed.

(** C6: every candidate the search has appended carries a retracement
    ratio [abs((wave_2_low - wave_1_high) / wave_1_length)] between 0.5 and
    0.618, and that band is not the classifier's, whose lower end is
    0.382. *)
Theorem search_retracement_in_band
        (swing_highs swing_lows : Series) (w : WaveCandidate) :
  In w (fst (search swing_highs swing_lows [])) ->
  (exists r, search_retracement w = Ok r
             /\ Py.le (PyFloat search_lo) r = true
             /\ Py.le r (PyFloat search_hi) = true)
  /\ (classify_lo <? search_lo)%float = true
  /\ (search_hi =? classify_hi)%float = true.
Proof.
  intros [[]|(i & j & Hw)]%search_emits.
  apply candidate_at_inv in Hw
    as (t1 & low1 & t2 & high1 & t3 & low2 & t4 & high2 & _ & _ & _ & _ & _
        & [Hlo Hhi] & ->).
  repeat split; try reflexivity.
  exists (NpFloat (PrimFloat.abs ((low2 - high1) / (high1 - low1)))).
  repeat split; assumption.
Qed.

Lemma search_retracement_in_band_witness :
  In more_highs_wave
     (fst (search (fst (_detect_swings more_highs))
                  (snd (_detect_swings more_highs)) []))
  /\ exists r, search_retracement more_highs_wave = Ok r
               /\ Py.le (PyFloat search_lo) r = true
               /\ Py.le r (PyFloat search_hi) = true.
Proof.
  split; [vm_compute; left; reflexivity|].
  apply (search_retracement_in_band
           (fst (_detect_swings more_highs)) (snd (_detect_swings more_highs))).
  vm_compute. left. reflexivity.
Defined.

(** C10: every candidate the search has appended has a Wave 1 of nonzero
    length, so [classify_pattern] divides by a nonzero number and returns a
    label on it. *)
Theorem search_wave_1_nonzero
        (swing_highs swing_lows : Series) (w : WaveCandidate) :
  In w (fst (search swing_highs swing_lows [])) ->
  is_zero (val (wave_1_length w)) = false
  /\ exists label, classify_pattern (ArgWave w) = Ok label.
Proof.
  intros [[]|(i & j & Hw)]%search_emits.
  apply candidate_at_inv in Hw
    as (t1 & low1 & t2 & high1 & t3 & low2 & t4 & high2 & _ & _ & _ & _ & _
        & [Hlo Hhi] & ->).
  assert (Hz : is_zero (PrimFloat.abs (high1 - low1)) = false).
  { rewrite is_zero_abs. exact (gate_excludes_zero low1 high1 low2 Hlo Hhi). }
  split; [exact Hz|].
  rewrite classify_pattern_wave. cbv zeta. eexists. reflexivity.
Qed.

Lemma search_wave_1_nonzero_witness :
  In high_first_wave
     (fst (search (fst (_detect_swings high_first))
                  (snd (_detect_swings high_first)) []))
  /\ is_zero (val (wave_1_length high_first_wave)) = false
  /\ exists label, classify_pattern (ArgWave high_first_wave) = Ok label.
Proof.
  split; [vm_compute; left; reflexivity|].
  apply (search_wave_1_nonzero
           (fst (_detect_swings high_first)) (snd (_detect_swings high_first))).
  vm_compute. left. reflexivity.
Defined.

(** X2: What holds of every appended candidate: Wave 1 starts before it ends,
    Wave 2 ends after Wave 1, each segment starts where the one before it
    ends, in price and in date, and every duration is the difference of the
    segment's dates.  The end of Wave 3 is not compared with anything. *)
Lemma search_partial_chronology
      (swing_highs swing_lows : Series) (w : WaveCandidate) :
  In w (fst (search swing_highs swing_lows [])) ->
  (start_date (Wave_1 w) < end_date (Wave_1 w) < end_date (Wave_2 w))%Z
  /\ snd (price_range (Wave_1 w)) = fst (price_range (Wave_2 w))
  /\ snd (price_range (Wave_2 w)) = fst (price_range (Wave_3 w))
  /\ end_date (Wave_1 w) = start_date (Wave_2 w)
  /\ end_date (Wave_2 w) = start_date (Wave_3 w)
  /\ duration (Wave_1 w) = (end_date (Wave_1 w) - start_date (Wave_1 w))%Z
  /\ duration (Wave_2 w) = (end_date (Wave_2 w) - start_date (Wave_2 w))%Z
  /\ duration (Wave_3 w) = (end_date (Wave_3 w) - start_date (Wave_3 w))%Z.
Proof.
  intros [[]|(i & j & Hw)]%search_emits.
  apply candidate_at_inv in Hw
    as (t1 & low1 & t2 & high1 & t3 & low2 & t4 & high2 & _ & _ & _ & _ & Ht
        & _ & ->).
  cbn. repeat split; try reflexivity; lia.
Qed.

(** The search stores numpy values, so classifying what it found never
    raises. *)
Lemma emitted_classified
      (swing_highs swing_lows : Series) (w : WaveCandidate) :
  In w (fst (search swing_highs swing_lows [])) ->
  exists label, classify_pattern (ArgWave w) = Ok label.
Proof.
  intros [[]|(i & j & Hw)]%search_emits.
  apply candidate_at_inv in Hw
    as (t1 & low1 & t2 & high1 & t3 & low2 & t4 & high2 & _ & _ & _ & _ & _
        & _ & ->).
  rewrite classify_pattern_wave. cbv zeta. eexists. reflexivity.
Qed.

(** ** identify_wave *)

Lemma last_or_empty {A : Type} (l : list A) :
  l = [] \/ exists earlier latest, l = earlier ++ [latest] /\ rev l = latest :: rev earlier.
Proof.
  destruct (rev l) as [|x r] eqn:E.
  - left. rewrite <- (rev_involutive l), E. reflexivity.
  - right. exists (rev r), x. rewrite rev_involutive. split; [|reflexivity].
    rewrite <- (rev_involutive l), E. reflexivity.
Qed.

(** The [try] block when the loops read no missing row. *)
Lemma identify_wave_try_completes (prices : Series) :
  let highs := fst (_detect_swings prices) in
  let lows := snd (_detect_swings prices) in
  length lows < 2 \/ length highs <= length lows ->
  (candidates highs lows = []
   /\ identify_wave_try prices = ([PrintNoValid], Ok None))
  \/ (exists earlier latest label,
        candidates highs lows = earlier ++ [latest]
        /\ classify_pattern (ArgWave latest) = Ok label
        /\ identify_wave_try prices =
           ([PrintLatest;
             PrintWave "Wave_1" (Wave_1 latest);
             PrintWave "Wave_2" (Wave_2 latest);
             PrintWave "Wave_3" (Wave_3 latest);
             PrintClassification label],
            Ok (Some latest))).
Proof.
  intros highs lows Hlen. unfold identify_wave_try.
  subst highs lows. destruct (_detect_swings prices) as [highs lows].
  cbn [fst snd] in *.
  pose proof (search_completes highs lows [] Hlen) as Hrun.
  cbn [app] in Hrun. rewrite Hrun.
  destruct (last_or_empty (candidates highs lows))
    as [E|(earlier & latest & E & Erev)].
  - left. rewrite E. auto.
  - right. rewrite Erev.
    destruct (emitted_classified highs lows latest) as [label Hlabel].
    { rewrite Hrun. cbn [fst]. rewrite E. apply in_or_app. right. now left. }
    exists earlier, latest, label. rewrite Hlabel. auto.
Qed.

(** The [try] block when there are more highs than lows. *)
Lemma identify_wave_try_fault (prices : Series) :
  2 <= length (snd (_detect_swings prices))
    < length (fst (_detect_swings prices)) ->
  identify_wave_try prices = ([], Raise IndexError).
Proof.
  intros Hlen. unfold identify_wave_try.
  destruct (_detect_swings prices) as [highs lows]. cbn [fst snd] in *.
  now rewrite (search_index_fault highs lows [] Hlen).
Qed.

(** C1 fails on [high_first], whose first swing is a high.  For the pair
    [(0, 2)] the search reads lows 0 and 2 and highs 1 and 2; high 2 (day
    5) precedes low 2 (day 6).  The candidate is appended and returned:
    Wave 3 ends before Wave 2 does and lasts minus one day. *)
Theorem wave_3_ends_before_wave_2 :
  strictly_increasing (index high_first) = true
  /\ fst (search (fst (_detect_swings high_first))
                 (snd (_detect_swings high_first)) []) = [high_first_wave]
  /\ snd (identify_wave high_first) = Some high_first_wave
  /\ (start_date (Wave_1 high_first_wave) < end_date (Wave_1 high_first_wave)
      < end_date (Wave_2 high_first_wave))%Z
  /\ (end_date (Wave_3 high_first_wave) < end_date (Wave_2 high_first_wave))%Z
  /\ (duration (Wave_3 high_first_wave) < 0)%Z.
Proof. repeat split; vm_compute; reflexivity. Qed.

(** C2 fails on [more_highs], with two lows and three highs: the inner loop
    runs [j] up to 2, and [swing_lows.iloc[2]] raises after one candidate
    has been appended. *)
Theorem lows_read_out_of_range :
  let highs := fst (_detect_swings more_highs) in
  let lows := snd (_detect_swings more_highs) in
  strictly_increasing (index more_highs) = true
  /\ length lows = 2 /\ length highs = 3
  /\ In 0 (range 0 (length lows - 1))
  /\ In 2 (range (0 + 1) (length highs))
  /\ iloc lows 2 = Raise IndexError
  /\ search_body highs lows 0 2 [more_highs_wave]
     = ([more_highs_wave], Raise IndexError)
  /\ search highs lows [] = ([more_highs_wave], Raise IndexError).
Proof.
  cbv zeta. repeat split; try (vm_compute; reflexivity);
    vm_compute; tauto.
Qed.

(** C3 fails on [more_highs]: the [IndexError] never reaches the caller,
    who gets [None] after the error has been printed. *)
Lemma index_error_swallowed :
  identify_wave_try more_highs = ([], Raise IndexError)
  /\ identify_wave more_highs = ([PrintError IndexError], None).
Proof. split; vm_compute; reflexivity. Qed.

(** C3, as the code has it: whenever the [try] block raises, [identify_wave]
    prints the exception and returns [None]; what it raises is the
    [IndexError] of the search, which occurs with at least two lows and
    more highs than lows, before anything has been printed. *)
Theorem identify_wave_swallows
        (prices : Series) (out : list event) (e : exn) :
  identify_wave_try prices = (out, Raise e) ->
  identify_wave prices = (out ++ [PrintError e], None)
  /\ e = IndexError /\ out = []
  /\ 2 <= length (snd (_detect_swings prices))
       < length (fst (_detect_swings prices)).
Proof.
  intros Htry. split; [unfold identify_wave; now rewrite Htry|].
  destruct (Nat.lt_ge_cases (length (snd (_detect_swings prices))) 2) as [H2|H2];
    [|destruct (Nat.lt_ge_cases (length (snd (_detect_swings prices)))
                                (length (fst (_detect_swings prices)))) as [H3|H3]].
  - destruct (identify_wave_try_completes prices (or_introl H2))
      as [[_ E]|(? & ? & ? & _ & _ & E)]; congruence.
  - rewrite identify_wave_try_fault in Htry by lia.
    injection Htry as <- <-. auto.
  - destruct (identify_wave_try_completes prices (or_intror H3))
      as [[_ E]|(? & ? & ? & _ & _ & E)]; congruence.
Qed.

Lemma identify_wave_swallows_witness :
  identify_wave_try more_highs = ([], Raise IndexError)
  /\ identify_wave more_highs = ([] ++ [PrintError IndexError], None).
Proof.
  split; [vm_compute; reflexivity|].
  apply (identify_wave_swallows more_highs [] IndexError).
  vm_compute. reflexivity.
Defined.

(** C8 fails on [more_highs], where the search has appended a candidate and
    [identify_wave] returns [None]; and on [two_each] the label is among
    the printed events, while the value returned is the dictionary alone. *)
Lemma latest_candidate_lost :
  fst (search (fst (_detect_swings more_highs))
              (snd (_detect_swings more_highs)) []) = [more_highs_wave]
  /\ identify_wave more_highs = ([PrintError IndexError], None)
  /\ identify_wave two_each =
     ([PrintLatest;
       PrintWave "Wave_1" (Wave_1 two_each_wave);
       PrintWave "Wave_2" (Wave_2 two_each_wave);
       PrintWave "Wave_3" (Wave_3 two_each_wave);
       PrintClassification "Corrective"],
      Some two_each_wave).
Proof. repeat split; vm_compute; reflexivity. Qed.

(** C8, as the code has it: when the swing sets do not have at least two
    lows and more highs than lows, the search returns [candidates], the
    pairs in loop order; with no candidate [identify_wave] prints that none
    was found and returns [None]; otherwise it takes the last one,
    classifies it, prints the label and returns the candidate. *)
Theorem identify_wave_latest (prices : Series) :
  let highs := fst (_detect_swings prices) in
  let lows := snd (_detect_swings prices) in
  length lows < 2 \/ length highs <= length lows ->
  search highs lows [] = (candidates highs lows, Ok tt)
  /\ (candidates highs lows = [] ->
      identify_wave prices = ([PrintNoValid], None))
  /\ (forall earlier latest,
        candidates highs lows = earlier ++ [latest] ->
        exists label,
          classify_pattern (ArgWave latest) = Ok label
          /\ identify_wave prices =
             ([PrintLatest;
               PrintWave "Wave_1" (Wave_1 latest);
               PrintWave "Wave_2" (Wave_2 latest);
               PrintWave "Wave_3" (Wave_3 latest);
               PrintClassification label],
              Some latest)).
Proof.
  intros highs lows Hlen.
  split; [exact (search_completes highs lows [] Hlen)|].
  unfold identify_wave.
  destruct (identify_wave_try_completes prices Hlen)
    as [[E Htry]|(earlier' & latest' & label & E & Hlabel & Htry)];
    fold highs lows in E; rewrite Htry.
  - split; [reflexivity|].
    intros earlier latest E'. rewrite E in E'. now destruct earlier.
  - split; [intros E'; rewrite E' in E; now destruct earlier'|].
    intros earlier latest E'. rewrite E in E'.
    apply app_inj_tail in E' as [_ <-]. eauto.
Qed.

Lemma identify_wave_latest_witness :
  (length (snd (_detect_swings high_first)) < 2
   \/ length (fst (_detect_swings high_first))
      <= length (snd (_detect_swings high_first)))
  /\ exists label,
       classify_pattern (ArgWave high_first_wave) = Ok label
       /\ identify_wave high_first =
          ([PrintLatest;
            PrintWave "Wave_1" (Wave_1 high_first_wave);
            PrintWave "Wave_2" (Wave_2 high_first_wave);
            PrintWave "Wave_3" (Wave_3 high_first_wave);
            PrintClassification label],
           Some high_first_wave).
Proof.
  assert (Hlen : length (snd (_detect_swings high_first)) < 2
                 \/ length (fst (_detect_swings high_first))
                    <= length (snd (_detect_swings high_first)))
    by (right; vm_compute; lia).
  split; [exact Hlen|].
  destruct (identify_wave_latest high_first Hlen) as (_ & _ & Hlast).
  apply (Hlast []). vm_compute. reflexivity.
Defined.

(** ** Search and classification together *)

(** The magnitude of a quotient is the quotient of the magnitudes, exactly:
    rounding does not look at the sign. *)
Lemma abs_div (x y : float) :
  PrimFloat.abs (x / y) = (PrimFloat.abs x / PrimFloat.abs y)%float.
Proof.
  apply Prim2SF_inj. rewrite abs_spec, !div_spec, !abs_spec. unfold SF64div.
  destruct (Prim2SF x) as [sx|sx| |sx mx ex], (Prim2SF y) as [sy|sy| |sy my ey];
    try reflexivity.
  cbn [SFabs SFdiv].
  destruct (SFdiv_core_binary prec emax (Z.pos mx) ex (Z.pos my) ey)
    as [[mz ez] lz].
  unfold binary_round_aux.
  destruct (shr_fexp prec emax mz ez lz) as [mrs e'].
  destruct (shr_fexp prec emax _ e' loc_Exact) as [mrs2 e2].
  destruct (shr_m mrs2); try reflexivity.
  destruct (e2 <=? emax - prec)%Z; reflexivity.
Qed.

(** What is at least 0.5 is at least 0.382. *)
Lemma search_lo_above_classify_lo (r : float) :
  (search_lo <=? r)%float = true -> (classify_lo <=? r)%float = true.
Proof.
  rewrite !leb_spec. unfold SFleb.
  change (Prim2SF search_lo) with (S754_finite false 4503599627370496 (-53)).
  change (Prim2SF classify_lo) with (S754_finite false 6881500230622118 (-54)).
  destruct (Prim2SF r) as [s|s| |s m e]; cbn [SFcompare];
    try (destruct s; auto; fail); auto.
  destruct s; auto.
  destruct (Z.compare_spec (-53) e), (Z.compare_spec (-54) e);
    try lia; auto; try discriminate.
Qed.

(** X4: On a candidate that the search has appended, the retracement test of
    [classify_pattern] always passes: the label is "Impulsive" when Wave 3
    is longer than Wave 1 and "Corrective" when it is not. *)
Theorem emitted_label_by_wave_3
        (swing_highs swing_lows : Series) (w : WaveCandidate) :
  In w (fst (search swing_highs swing_lows [])) ->
  classify_pattern (ArgWave w) =
  Ok (if Py.lt (wave_1_length w) (wave_3_length w)
      then "Impulsive"%string else "Corrective"%string).
Proof.
  intros [[]|(i & j & Hw)]%search_emits.
  apply candidate_at_inv in Hw
    as (t1 & low1 & t2 & high1 & t3 & low2 & t4 & high2 & _ & _ & _ & _ & _
        & [Hlo Hhi] & ->).
  rewrite classify_pattern_wave.
  cbn [wave_1_length wave_2_length wave_3_length price_range Wave_1 Wave_2
       Wave_3 fst snd Py.sub Py.abs val is_py andb Py.lt].
  cbv zeta. rewrite <- abs_div.
  rewrite (search_lo_above_classify_lo _ Hlo).
  change classify_hi with search_hi. rewrite Hhi. reflexivity.
Qed.

Lemma emitted_label_by_wave_3_witness :
  In high_first_wave
     (fst (search (fst (_detect_swings high_first))
                  (snd (_detect_swings high_first)) []))
  /\ classify_pattern (ArgWave high_first_wave) =
     Ok (if Py.lt (wave_1_length high_first_wave) (wave_3_length high_first_wave)
         then "Impulsive"%string else "Corrective"%string).
Proof.
  split; [vm_compute; left; reflexivity|].
  apply (emitted_label_by_wave_3
           (fst (_detect_swings high_first)) (snd (_detect_swings high_first))).
  vm_compute. left. reflexivity.
Defined.

(** X1: The search raises, and then an [IndexError], exactly when there are at
    least two lows and more highs than lows.  It then leaves the candidates
    of the pairs [(0, 1)], ..., [(0, len(lows) - 1)] behind; otherwise it
    appends the candidates of all pairs in loop order. *)
Theorem search_outcome
        (swing_highs swing_lows : Series) (wave_points : list WaveCandidate) :
  search swing_highs swing_lows wave_points =
  if ((2 <=? length swing_lows) && (length swing_lows <? length swing_highs))%nat
  then (wave_points
          ++ flat_map (fun j => opt_list (candidate_at swing_highs swing_lows 0 j))
                      (range 1 (length swing_lows)),
        Raise IndexError)
  else (wave_points ++ candidates swing_highs swing_lows, Ok tt).
Proof.
  destruct (Nat.leb_spec 2 (length swing_lows)) as [H2|H2];
    destruct (Nat.ltb_spec (length swing_lows) (length swing_highs)) as [H3|H3];
    cbn [andb].
  - apply search_index_fault. lia.
  - apply search_completes. lia.
  - apply search_completes. lia.
  - apply search_completes. lia.
Qed.

(** ** More on swing detection *)

Section Sorting.

Lemma insert_row_perm (r : timestamp * float) (s : Series) :
  Permutation (insert_row r s) (r :: s).
Proof.
  induction s as [|r' s IH]; cbn [insert_row]; [reflexivity|].
  destruct (fst r <=? fst r')%Z; [reflexivity|].
  rewrite IH. apply perm_swap.
Qed.

Lemma sort_index_perm (s : Series) : Permutation (sort_index s) s.
Proof.
  induction s as [|r s IH]; [reflexivity|].
  cbn [sort_index]. rewrite insert_row_perm. now constructor.
Qed.

Lemma insert_row_hd (a : timestamp) (r : timestamp * float) (s : Series) :
  (a <= fst r)%Z -> HdRel Z.le a (index s) ->
  HdRel Z.le a (index (insert_row r s)).
Proof.
  intros Ha Hs. destruct s as [|r' s]; cbn [insert_row]; [now repeat constructor|].
  destruct (fst r <=? fst r')%Z; cbn; constructor; [exact Ha|].
  now inversion Hs.
Qed.

Lemma insert_row_sorted (r : timestamp * float) (s : Series) :
  Sorted Z.le (index s) -> Sorted Z.le (index (insert_row r s)).
Proof.
  induction s as [|r' s IH]; intros Hs; cbn [insert_row].
  - repeat constructor.
  - destruct (Z.leb_spec (fst r) (fst r')) as [Hle|Hgt]; cbn.
    + constructor; [exact Hs|]. now constructor.
    + inversion Hs as [|? ? Hs' Hd]; subst.
      constructor; [apply IH; exact Hs'|].
      apply insert_row_hd; [lia|exact Hd].
Qed.

Lemma sort_index_ascending (s : Series) : Sorted Z.le (index (sort_index s)).
Proof.
  induction s as [|r s IH]; [constructor|].
  cbn [sort_index]. now apply insert_row_sorted.
Qed.

End Sorting.

(** X5: Whatever the order of the rows that come in, each swing sequence comes
    out in ascending order of its labels, and holds the rows that the masks
    select, each as often as selected. *)
Theorem detect_swings_sorts (prices : Series) :
  Sorted Z.le (index (fst (_detect_swings prices)))
  /\ Sorted Z.le (index (snd (_detect_swings prices)))
  /\ Permutation (fst (_detect_swings prices))
                 (select prices (swing_high_mask (values prices)))
  /\ Permutation (snd (_detect_swings prices))
                 (select prices (swing_low_mask (values prices))).
Proof.
  cbn [_detect_swings fst snd].
  auto using sort_index_ascending, sort_index_perm.
Qed.

(** X6: On strictly increasing labels the first [_detect_swings] of the class,
    which does not sort, returns what the second one returns. *)
Theorem detect_swings_first_agrees (prices : Series) :
  strictly_increasing (index prices) = true ->
  _detect_swings_first prices = _detect_swings prices.
Proof.
  intros Hinc%strictly_increasing_sorted.
  unfold _detect_swings_first, _detect_swings. cbv zeta.
  now rewrite !sort_index_sorted by (apply select_sorted; exact Hinc).
Qed.

Lemma detect_swings_first_agrees_witness :
  strictly_increasing (index more_highs) = true
  /\ _detect_swings_first more_highs = _detect_swings more_highs.
Proof.
  split; [vm_compute; reflexivity|].
  apply (detect_swings_first_agrees more_highs). vm_compute. reflexivity.
Defined.

(** X7: Two rows next to each other are never both swing highs, and never both
    swing lows. *)
Theorem swings_not_adjacent (prices : Series) (i : nat) :
  nth i (swing_high_mask (values prices)) false
  && nth (S i) (swing_high_mask (values prices)) false = false
  /\ nth i (swing_low_mask (values prices)) false
     && nth (S i) (swing_low_mask (values prices)) false = false.
Proof.
  split.
  - destruct (nth i (swing_high_mask _) false) eqn:E1; [|reflexivity].
    destruct (nth (S i) (swing_high_mask _) false) eqn:E2; [|reflexivity].
    apply swing_high_mask_nth in E1 as (_ & _ & _ & H1).
    apply swing_high_mask_nth in E2 as (_ & _ & H2 & _).
    replace (S i - 1) with i in H2 by lia. replace (i + 1) with (S i) in H1 by lia.
    apply ltb_asym in H1. congruence.
  - destruct (nth i (swing_low_mask _) false) eqn:E1; [|reflexivity].
    destruct (nth (S i) (swing_low_mask _) false) eqn:E2; [|reflexivity].
    apply swing_low_mask_nth in E1 as (_ & _ & _ & H1).
    apply swing_low_mask_nth in E2 as (_ & _ & H2 & _).
    replace (S i - 1) with i in H2 by lia. replace (i + 1) with (S i) in H1 by lia.
    apply ltb_asym in H1. congruence.
Qed.

Section Counting.

Context {A : Type}.

Lemma select_nil (s : list A) : select s [] = [].
Proof. now destruct s. Qed.

Lemma length_select_le (s : list A) (m : list bool) :
  length (select s m) <= length s.
Proof.
  revert m. induction s as [|x s IH]; intros [|b m]; cbn [select length]; try lia.
  specialize (IH m). destruct b; cbn [length]; lia.
Qed.

Lemma select_exclusive_length (s : list A) (m1 m2 : list bool) :
  (forall i, nth i m1 false = true -> nth i m2 false = true -> False) ->
  length (select s m1) + length (select s m2) <= length s.
Proof.
  revert m1 m2. induction s as [|x s IH]; intros m1 m2 Hex; [cbn; lia|].
  destruct m1 as [|b1 m1].
  { rewrite select_nil. apply (length_select_le (x :: s) m2). }
  destruct m2 as [|b2 m2].
  { rewrite select_nil, Nat.add_0_r. apply (length_select_le (x :: s)). }
  assert (Hx : forall i, nth i m1 false = true -> nth i m2 false = true -> False)
    by (intros i; apply (Hex (S i))).
  specialize (IH m1 m2 Hx).
  pose proof (Hex 0) as H0. cbn in H0.
  cbn [select]. destruct b1, b2; cbn [length]; try lia.
Qed.

Lemma select_app_last (s : list A) (z : A) (m : list bool) :
  select (s ++ [z]) m
  = select s m ++ (if nth (length s) m false then [z] else []).
Proof.
  revert m. induction s as [|x s IH]; intros [|b m]; cbn [app select length nth].
  - reflexivity.
  - destruct b; reflexivity.
  - reflexivity.
  - rewrite IH. destruct b; reflexivity.
Qed.

Lemma select_cons_false (x : A) (s : list A) (m : list bool) :
  nth 0 m false = false -> select (x :: s) m = select s (tl m).
Proof.
  destruct m as [|b m]; cbn; [now destruct s|]. now intros ->.
Qed.

Lemma nth_tl (m : list bool) (i : nat) :
  nth i (tl m) false = nth (S i) m false.
Proof. destruct m; [destruct i|]; reflexivity. Qed.

(** Masks that exclude each other, and the first and the last row, select
    at most [len - 2] rows between them. *)
Lemma select_inner_length (s : list A) (m1 m2 : list bool) :
  (forall i, nth i m1 false = true -> nth i m2 false = true -> False) ->
  nth 0 m1 false = false -> nth 0 m2 false = false ->
  nth (length s - 1) m1 false = false -> nth (length s - 1) m2 false = false ->
  length (select s m1) + length (select s m2) <= length s - 2.
Proof.
  intros Hex H1 H2 H1' H2'.
  destruct s as [|x s]; [cbn; lia|].
  rewrite !select_cons_false by assumption.
  destruct (last_or_empty s) as [->|(s' & z & -> & _)]; [cbn; lia|].
  rewrite !select_app_last, !nth_tl.
  cbn [length] in H1', H2'. rewrite length_app in H1', H2'. cbn [length] in H1', H2'.
  replace (S (length s' + 1) - 1) with (S (length s')) in H1', H2' by lia.
  rewrite H1', H2', !app_nil_r.
  cbn [length]. rewrite length_app. cbn [length].
  pose proof (select_exclusive_length s' (tl m1) (tl m2)) as Hle.
  assert (Hx : forall i, nth i (tl m1) false = true ->
                         nth i (tl m2) false = true -> False)
    by (intros i; rewrite !nth_tl; apply Hex).
  specialize (Hle Hx). lia.
Qed.

End Counting.

Lemma swing_mask_ends (prices : Series) (i : nat) :
  i = 0 \/ i = length prices - 1 ->
  nth i (swing_high_mask (values prices)) false = false
  /\ nth i (swing_low_mask (values prices)) false = false.
Proof.
  intros Hi. split.
  - destruct (nth i (swing_high_mask _) false) eqn:E; [|reflexivity].
    apply swing_high_mask_nth in E. unfold values in E. rewrite length_map in E. lia.
  - destruct (nth i (swing_low_mask _) false) eqn:E; [|reflexivity].
    apply swing_low_mask_nth in E. unfold values in E. rewrite length_map in E. lia.
Qed.

Lemma swing_count (prices : Series) :
  length (select prices (swing_high_mask (values prices)))
  + length (select prices (swing_low_mask (values prices)))
  <= length prices - 2.
Proof.
  apply select_inner_length.
  - apply swing_masks_exclusive.
  - apply swing_mask_ends. now left.
  - apply swing_mask_ends. now left.
  - apply swing_mask_ends. now right.
  - apply swing_mask_ends. now right.
Qed.

Lemma length_sort_index (s : Series) : length (sort_index s) = length s.
Proof. apply Permutation_length, sort_index_perm. Qed.

(** X8: A series of [n] rows has at most [n - 2] swings, highs and lows
    together. *)
Theorem detect_swings_count (prices : Series) :
  length (fst (_detect_swings prices)) + length (snd (_detect_swings prices))
  <= length prices - 2.
Proof.
  cbn [_detect_swings fst snd]. rewrite !length_sort_index. apply swing_count.
Qed.

(** ** More on identify_wave *)

Lemma never_falls_nth (v : list float) (i : nat) :
  never_falls v = true -> (nth (S i) v nan <? nth i v nan)%float = false.
Proof.
  revert i. induction v as [|a v IH]; intros i H.
  - destruct i; reflexivity.
  - destruct v as [|b v].
    + destruct i as [|[|i]]; cbn [nth]; apply ltb_nan_l.
    + change (never_falls (a :: b :: v))
        with (negb (b <? a)%float && never_falls (b :: v)) in H.
      apply andb_true_iff in H as [H1 H2].
      destruct i as [|i]; [cbn [nth]; now apply negb_true_iff|].
      apply (IH i H2).
Qed.

Lemma never_rises_nth (v : list float) (i : nat) :
  never_rises v = true -> (nth i v nan <? nth (S i) v nan)%float = false.
Proof.
  revert i. induction v as [|a v IH]; intros i H.
  - destruct i; reflexivity.
  - destruct v as [|b v].
    + destruct i as [|[|i]]; cbn [nth]; apply ltb_nan_r.
    + change (never_rises (a :: b :: v))
        with (negb (a <? b)%float && never_rises (b :: v)) in H.
      apply andb_true_iff in H as [H1 H2].
      destruct i as [|i]; [cbn [nth]; now apply negb_true_iff|].
      apply (IH i H2).
Qed.

Lemma no_swings_no_wave (prices : Series) :
  _detect_swings prices = ([], []) ->
  identify_wave prices = ([PrintNoValid], None).
Proof.
  intros H. unfold identify_wave, identify_wave_try. now rewrite H.
Qed.

(** X9: Prices that never fall, or never rise, hold no swing: [identify_wave]
    prints that no pattern was found and returns [None]. *)
Theorem monotone_no_wave (prices : Series) :
  never_falls (values prices) = true \/ never_rises (values prices) = true ->
  _detect_swings prices = ([], [])
  /\ identify_wave prices = ([PrintNoValid], None).
Proof.
  intros Hmono.
  assert (H : _detect_swings prices = ([], [])).
  { unfold _detect_swings. cbv zeta.
    rewrite !select_all_false; [reflexivity| |].
    - intros i (Hi & _ & H1 & H2)%swing_low_mask_nth.
      destruct Hmono as [Hm|Hm].
      + pose proof (never_falls_nth _ (i - 1) Hm) as Hf.
        replace (S (i - 1)) with i in Hf by lia. congruence.
      + pose proof (never_rises_nth _ i Hm) as Hr.
        replace (i + 1) with (S i) in H2 by lia. congruence.
    - intros i (Hi & _ & H1 & H2)%swing_high_mask_nth.
      destruct Hmono as [Hm|Hm].
      + pose proof (never_falls_nth _ i Hm) as Hf.
        replace (i + 1) with (S i) in H2 by lia. congruence.
      + pose proof (never_rises_nth _ (i - 1) Hm) as Hr.
        replace (S (i - 1)) with i in Hr by lia. congruence. }
  split; [exact H|now apply no_swings_no_wave].
Qed.

Lemma monotone_no_wave_witness :
  (never_falls (values rising) = true \/ never_rises (values rising) = true)
  /\ _detect_swings rising = ([], [])
  /\ identify_wave rising = ([PrintNoValid], None).
Proof.
  assert (H : never_falls (values rising) = true
              \/ never_rises (values rising) = true)
    by (left; vm_compute; reflexivity).
  split; [exact H|]. exact (monotone_no_wave rising H).
Defined.

(** Every candidate of the comprehension comes from a pair [i < j] within
    the bounds of the loops. *)
Lemma candidates_in (swing_highs swing_lows : Series) (w : WaveCandidate) :
  In w (candidates swing_highs swing_lows) ->
  exists i j, i + 1 < length swing_lows /\ i < j < length swing_highs
              /\ candidate_at swing_highs swing_lows i j = Some w.
Proof.
  unfold candidates.
  intros (i & Hi%In_range & (j & Hj%In_range & Hw)%in_flat_map)%in_flat_map.
  exists i, j. repeat split; try lia.
  destruct (candidate_at swing_highs swing_lows i j); cbn in Hw;
    intuition congruence.
Qed.

(** X10: Fewer than six rows never hold a wave, and never make the search fail:
    [identify_wave] prints that no pattern was found and returns [None].
    Six rows can hold one. *)
Theorem short_series_no_wave :
  (forall prices : Series,
     length prices < 6 -> identify_wave prices = ([PrintNoValid], None))
  /\ length six_days = 6
  /\ exists w, snd (identify_wave six_days) = Some w.
Proof.
  split; [|split; [reflexivity|eexists; vm_compute; reflexivity]].
  intros prices Hn.
  pose proof (swing_count prices) as Hcount.
  assert (Hlen : length (snd (_detect_swings prices)) < 2
                 \/ length (fst (_detect_swings prices))
                    <= length (snd (_detect_swings prices))).
  { cbn [_detect_swings fst snd]. rewrite !length_sort_index. lia. }
  unfold identify_wave.
  destruct (identify_wave_try_completes prices Hlen)
    as [[_ ->]|(earlier & latest & label & E & _ & _)]; [reflexivity|].
  assert (Hin : In latest (candidates (fst (_detect_swings prices))
                                      (snd (_detect_swings prices))))
    by (rewrite E; apply in_or_app; right; now left).
  apply candidates_in in Hin as (i & j & Hi & Hj & _).
  cbn [_detect_swings fst snd] in Hi, Hj.
  rewrite length_sort_index in Hi, Hj. lia.
Qed.

Lemma short_series_no_wave_witness :
  length two_days < 6 /\ identify_wave two_days = ([PrintNoValid], None).
Proof.
  split; [vm_compute; lia|].
  apply (proj1 short_series_no_wave two_days). vm_compute. lia.
Defined.

Section Order.

Context {Y : Type} (R : Y -> Y -> Prop).

Lemma StronglySorted_app (l1 l2 : list Y) :
  StronglySorted R l1 -> StronglySorted R l2 ->
  (forall a b, In a l1 -> In b l2 -> R a b) ->
  StronglySorted R (l1 ++ l2).
Proof.
  intros H1 H2 H12. induction H1 as [|a l1 Hs IH Hall]; [exact H2|].
  cbn [app]. constructor.
  - apply IH. intros x y Hx Hy. apply H12; [now right|exact Hy].
  - apply Forall_app. split; [exact Hall|].
    apply Forall_forall. intros b Hb. apply H12; [now left|exact Hb].
Qed.

Lemma StronglySorted_app_inv (l1 l2 : list Y) :
  StronglySorted R (l1 ++ l2) ->
  forall a b, In a l1 -> In b l2 -> R a b.
Proof.
  induction l1 as [|x l1 IH]; intros H a b Ha Hb; [destruct Ha|].
  cbn [app] in H. inversion H as [|? ? Hs Hall]; subst.
  destruct Ha as [->|Ha]; [|now apply IH].
  rewrite Forall_forall in Hall. apply Hall, in_or_app. now right.
Qed.

Lemma all_related_sorted (l : list Y) :
  (forall a b, In a l -> In b l -> R a b) -> StronglySorted R l.
Proof.
  induction l as [|x l IH]; intros H; constructor.
  - apply IH. intros a b Ha Hb. apply H; now right.
  - apply Forall_forall. intros b Hb. apply H; [now left|now right].
Qed.

Lemma flat_map_sorted {X : Type} (f : X -> list Y) (xs : list X) :
  (forall x, In x xs -> StronglySorted R (f x)) ->
  StronglySorted (fun x x' => forall a b, In a (f x) -> In b (f x') -> R a b) xs ->
  StronglySorted R (flat_map f xs).
Proof.
  intros Hin Hout. induction Hout as [|x xs Hs IH Hall]; [constructor|].
  cbn [flat_map]. apply StronglySorted_app.
  - apply Hin. now left.
  - apply IH. intros x' Hx'. apply Hin. now right.
  - intros a b Ha (x' & Hx' & Hb)%in_flat_map.
    rewrite Forall_forall in Hall. exact (Hall x' Hx' a b Ha Hb).
Qed.

End Order.

Lemma seq_sorted (R : nat -> nat -> Prop) (a n : nat) :
  (forall x y, x < y -> R x y) -> StronglySorted R (seq a n).
Proof.
  intros HR. revert a. induction n as [|n IH]; intros a; constructor; [apply IH|].
  apply Forall_forall. intros y Hy%in_seq. apply HR. lia.
Qed.

Lemma nth_error_sorted (l : list timestamp) (i j : nat) (a b : timestamp) :
  StronglySorted Z.lt l -> i < j ->
  nth_error l i = Some a -> nth_error l j = Some b -> (a < b)%Z.
Proof.
  intros Hs. revert i j. induction Hs as [|x l Hs IH Hall]; intros i j Hij Ha Hb.
  - destruct i; discriminate.
  - destruct j as [|j]; [lia|]. destruct i as [|i].
    + cbn in Ha, Hb. injection Ha as <-. apply nth_error_In in Hb.
      rewrite Forall_forall in Hall. now apply Hall.
    + cbn in Ha, Hb. apply (IH i j); [lia|assumption|assumption].
Qed.

Lemma nth_error_index (s : Series) (i : nat) (t : timestamp) (p : float) :
  nth_error s i = Some (t, p) -> nth_error (index s) i = Some t.
Proof. intros H. unfold index. now rewrite nth_error_map, H. Qed.

Lemma detect_swings_keeps_order (prices : Series) :
  strictly_increasing (index prices) = true ->
  StronglySorted Z.lt (index (fst (_detect_swings prices)))
  /\ StronglySorted Z.lt (index (snd (_detect_swings prices))).
Proof.
  intros Hinc%strictly_increasing_sorted. cbn [_detect_swings fst snd].
  rewrite !sort_index_sorted by (apply select_sorted; exact Hinc).
  split; apply select_sorted; exact Hinc.
Qed.

(** In loop order the candidates are in order of the start of Wave 1, when
    the lows are in order. *)
Lemma candidates_by_start (swing_highs swing_lows : Series) :
  StronglySorted Z.lt (index swing_lows) ->
  StronglySorted
    (fun a b => (start_date (Wave_1 a) <= start_date (Wave_1 b))%Z)
    (candidates swing_highs swing_lows).
Proof.
  intros Hs. unfold candidates.
  assert (Hstart : forall i w,
            In w (flat_map
                    (fun j => opt_list (candidate_at swing_highs swing_lows i j))
                    (range (i + 1) (length swing_highs))) ->
            nth_error (index swing_lows) i = Some (start_date (Wave_1 w))).
  { intros i w (j & _ & Hw)%in_flat_map.
    destruct (candidate_at swing_highs swing_lows i j) as [w'|] eqn:E;
      cbn in Hw; [|destruct Hw].
    destruct Hw as [<-|[]].
    apply candidate_at_inv in E
      as (t1 & low1 & ? & ? & ? & ? & ? & ? & H1 & _ & _ & _ & _ & _ & ->).
    cbn. exact (nth_error_index _ _ _ _ H1). }
  apply flat_map_sorted.
  - intros i _. apply all_related_sorted. intros a b Ha%Hstart Hb%Hstart.
    assert (start_date (Wave_1 a) = start_date (Wave_1 b)) by congruence. lia.
  - apply seq_sorted. intros i i' Hlt a b Ha%Hstart Hb%Hstart.
    pose proof (nth_error_sorted _ _ _ _ _ Hs Hlt Ha Hb). lia.
Qed.

(** X11: On strictly increasing labels, the wave that [identify_wave] returns
    has the latest start of Wave 1 among all candidates that the search
    appended. *)
Theorem latest_wave_starts_last
        (prices : Series) (latest w : WaveCandidate) :
  strictly_increasing (index prices) = true ->
  snd (identify_wave prices) = Some latest ->
  In w (fst (search (fst (_detect_swings prices))
                    (snd (_detect_swings prices)) [])) ->
  (start_date (Wave_1 w) <= start_date (Wave_1 latest))%Z.
Proof.
  intros [_ Hlows]%detect_swings_keeps_order Hret Hw.
  set (highs := fst (_detect_swings prices)) in *.
  set (lows := snd (_detect_swings prices)) in *.
  assert (Hlen : length lows < 2 \/ length highs <= length lows).
  { destruct (Nat.lt_ge_cases (length lows) 2); [now left|].
    destruct (Nat.lt_ge_cases (length lows) (length highs)); [|now right].
    exfalso. unfold identify_wave in Hret.
    rewrite identify_wave_try_fault in Hret by (fold highs lows; lia).
    discriminate. }
  rewrite (search_completes highs lows [] Hlen) in Hw. cbn [app fst] in Hw.
  unfold identify_wave in Hret.
  destruct (identify_wave_try_completes prices Hlen)
    as [[_ E]|(earlier & latest' & label & E & _ & Htry)];
    rewrite ?E, ?Htry in Hret; [discriminate|].
  cbn in Hret. injection Hret as ->.
  fold highs lows in E.
  pose proof (candidates_by_start highs lows Hlows) as Hsorted.
  rewrite E in Hsorted, Hw.
  apply in_app_or in Hw as [Hw|[<-|[]]]; [|lia].
  apply (StronglySorted_app_inv _ _ _ Hsorted w latest Hw). now left.
Qed.

Lemma latest_wave_starts_last_witness :
  strictly_increasing (index two_waves) = true
  /\ snd (identify_wave two_waves) = Some two_waves_latest
  /\ In two_waves_first
        (fst (search (fst (_detect_swings two_waves))
                     (snd (_detect_swings two_waves)) []))
  /\ (start_date (Wave_1 two_waves_first)
      <= start_date (Wave_1 two_waves_latest))%Z.
Proof.
  assert (H1 : strictly_increasing (index two_waves) = true)
    by (vm_compute; reflexivity).
  assert (H2 : snd (identify_wave two_waves) = Some two_waves_latest)
    by (vm_compute; reflexivity).
  assert (H3 : In two_waves_first
                  (fst (search (fst (_detect_swings two_waves))
                               (snd (_detect_swings two_waves)) [])))
    by (vm_compute; left; reflexivity).
  split; [exact H1|split; [exact H2|split; [exact H3|]]].
  exact (latest_wave_starts_last two_waves two_waves_latest two_waves_first H1 H2 H3).
Defined.

(** Whatever the search has appended comes from a pair [i < j]. *)
Lemma search_emits_pair
      (swing_highs swing_lows : Series) (w : WaveCandidate) :
  In w (fst (search swing_highs swing_lows [])) ->
  exists i j, i < j /\ candidate_at swing_highs swing_lows i j = Some w.
Proof.
  destruct (Nat.lt_ge_cases (length swing_lows) 2) as [H2|H2];
    [|destruct (Nat.lt_ge_cases (length swing_lows) (length swing_highs))
        as [H3|H3]].
  - rewrite search_completes by now left. cbn [app fst].
    intros (i & j & _ & Hj & Hw)%candidates_in. exists i, j. split; [lia|exact Hw].
  - rewrite search_index_fault by lia. cbn [app fst].
    intros (j & Hj%In_range & Hw)%in_flat_map. exists 0, j. split; [lia|].
    destruct (candidate_at swing_highs swing_lows 0 j); cbn in Hw;
      intuition congruence.
  - rewrite search_completes by now right. cbn [app fst].
    intros (i & j & _ & Hj & Hw)%candidates_in. exists i, j. split; [lia|exact Hw].
Qed.

(** X3: On strictly increasing labels, Wave 3 of every appended candidate ends
    after Wave 1 has ended, also when it ends before Wave 2 does. *)
Theorem wave_3_ends_after_wave_1 (prices : Series) (w : WaveCandidate) :
  strictly_increasing (index prices) = true ->
  In w (fst (search (fst (_detect_swings prices))
                    (snd (_detect_swings prices)) [])) ->
  (end_date (Wave_1 w) < end_date (Wave_3 w))%Z.
Proof.
  intros [Hhighs _]%detect_swings_keeps_order (i & j & Hij & Hw)%search_emits_pair.
  apply candidate_at_inv in Hw
    as (t1 & low1 & t2 & high1 & t3 & low2 & t4 & high2 & _ & H2 & _ & H4 & _
        & _ & ->).
  cbn. apply nth_error_index in H2, H4.
  apply (nth_error_sorted _ (j - 1) j _ _ Hhighs); [lia|assumption|assumption].
Qed.

Lemma wave_3_ends_after_wave_1_witness :
  strictly_increasing (index high_first) = true
  /\ In high_first_wave
        (fst (search (fst (_detect_swings high_first))
                     (snd (_detect_swings high_first)) []))
  /\ (end_date (Wave_1 high_first_wave) < end_date (Wave_3 high_first_wave))%Z.
Proof.
  assert (H1 : strictly_increasing (index high_first) = true)
    by (vm_compute; reflexivity).
  assert (H2 : In high_first_wave
                  (fst (search (fst (_detect_swings high_first))
                               (snd (_detect_swings high_first)) [])))
    by (vm_compute; left; reflexivity).
  split; [exact H1|split; [exact H2|]].
  exact (wave_3_ends_after_wave_1 high_first high_first_wave H1 H2).
Defined.

(** ** _fibonacci_retracement *)

Lemma SFcompare_refl (a : spec_float) :
  a <> S754_nan -> SFcompare a a = Some Eq.
Proof.
  destruct a as [s|s| |s m e]; intros H; try congruence; cbn [SFcompare].
  - reflexivity.
  - destruct s; reflexivity.
  - rewrite Z.compare_refl, Pos.compare_cont_refl. destruct s; reflexivity.
Qed.

Lemma is_nan_spec (x : float) : is_nan x = false -> Prim2SF x <> S754_nan.
Proof.
  unfold is_nan. rewrite eqb_spec. intros H E. rewrite E in H. discriminate.
Qed.

Lemma is_finite_spec (x : float) :
  is_finite x = true -> (exists s, Prim2SF x = S754_zero s) \/ finite x.
Proof.
  unfold is_finite, is_nan, is_infinity, finite. rewrite !eqb_spec, abs_spec.
  change (Prim2SF infinity) with (S754_infinity false).
  destruct (Prim2SF x) as [s|s| |s m e]; [eauto| | |eauto 6].
  - destruct s; cbn; discriminate.
  - cbn; discriminate.
Qed.

(** X13: At level 0 the retracement is the high itself ([==] in Python), when
    the high is a number and [high - low] does not overflow. *)
Theorem fibonacci_level_zero (high low : float) :
  is_nan high = false -> is_finite (high - low) = true ->
  (_fibonacci_retracement high low 0 =? high)%float = true.
Proof.
  intros Hh%is_nan_spec Hd%is_finite_spec.
  unfold _fibonacci_retracement.
  rewrite eqb_spec, sub_spec, mul_spec. unfold SF64sub, SF64mul, SFeqb.
  change (Prim2SF 0) with (S754_zero false).
  assert (Hz : exists s,
            SFmul prec emax (Prim2SF (high - low)) (S754_zero false)
            = S754_zero s).
  { destruct Hd as [[s ->]|(s & m & e & ->)]; cbn; eauto. }
  destruct Hz as [s ->].
  destruct (Prim2SF high) as [sh|sh| |sh m e] eqn:E; try congruence.
  - destruct sh, s; reflexivity.
  - cbn [SFsub]. rewrite SFcompare_refl by discriminate. reflexivity.
  - cbn [SFsub]. rewrite SFcompare_refl by discriminate. reflexivity.
Qed.

Lemma fibonacci_level_zero_witness :
  is_nan 200 = false /\ is_finite (200 - 100) = true
  /\ (_fibonacci_retracement 200 100 0 =? 200)%float = true.
Proof.
  assert (H1 : is_nan 200 = false) by (vm_compute; reflexivity).
  assert (H2 : is_finite (200 - 100) = true) by (vm_compute; reflexivity).
  split; [exact H1|split; [exact H2|]].
  exact (fibonacci_level_zero 200 100 H1 H2).
Defined.

(** ** When the candidates are chronological *)

Lemma nth_error_combine {A B : Type} (l1 : list A) (l2 : list B)
      (i : nat) (a : A) (b : B) :
  nth_error l1 i = Some a -> nth_error l2 i = Some b ->
  nth_error (combine l1 l2) i = Some (a, b).
Proof.
  revert l2 i. induction l1 as [|x l1 IH]; intros [|y l2] [|i] Ha Hb;
    try discriminate; cbn in *.
  - congruence.
  - now apply IH.
Qed.

(** X12: When every low is earlier than the high of the same position, every
    appended candidate is chronological: the four dates increase strictly
    and the three durations are positive. *)
Theorem aligned_swings_chronological
        (swing_highs swing_lows : Series) (w : WaveCandidate) :
  lows_lead swing_highs swing_lows = true ->
  In w (fst (search swing_highs swing_lows [])) ->
  (start_date (Wave_1 w) < end_date (Wave_1 w) < end_date (Wave_2 w))%Z
  /\ (end_date (Wave_2 w) < end_date (Wave_3 w))%Z
  /\ (0 < duration (Wave_1 w))%Z /\ (0 < duration (Wave_2 w))%Z
  /\ (0 < duration (Wave_3 w))%Z.
Proof.
  intros Hlead [[]|(i & j & Hw)]%search_emits.
  apply candidate_at_inv in Hw
    as (t1 & low1 & t2 & high1 & t3 & low2 & t4 & high2 & _ & _ & H3 & H4 & Ht
        & _ & ->).
  pose proof (nth_error_combine _ _ _ _ _ H3 H4) as Hc.
  apply nth_error_In in Hc.
  unfold lows_lead in Hlead. rewrite forallb_forall in Hlead.
  apply Hlead in Hc. cbn in Hc. apply Z.ltb_lt in Hc.
  cbn. lia.
Qed.

Lemma aligned_swings_chronological_witness :
  lows_lead (fst (_detect_swings more_highs)) (snd (_detect_swings more_highs))
  = true
  /\ In more_highs_wave
        (fst (search (fst (_detect_swings more_highs))
                     (snd (_detect_swings more_highs)) []))
  /\ (end_date (Wave_2 more_highs_wave) < end_date (Wave_3 more_highs_wave))%Z.
Proof.
  assert (H1 : lows_lead (fst (_detect_swings more_highs))
                         (snd (_detect_swings more_highs)) = true)
    by (vm_compute; reflexivity).
  assert (H2 : In more_highs_wave
                  (fst (search (fst (_detect_swings more_highs))
                               (snd (_detect_swings more_highs)) [])))
    by (vm_compute; left; reflexivity).
  split; [exact H1|split; [exact H2|]].
  exact (proj1 (proj2 (aligned_swings_chronological _ _ more_highs_wave H1 H2))).
Defined.

Lemma search_partial_chronology_witness :
  In high_first_wave
     (fst (search (fst (_detect_swings high_first))
                  (snd (_detect_swings high_first)) []))
  /\ (start_date (Wave_1 high_first_wave) < end_date (Wave_1 high_first_wave)
      < end_date (Wave_2 high_first_wave))%Z.
Proof.
  assert (H : In high_first_wave
                 (fst (search (fst (_detect_swings high_first))
                              (snd (_detect_swings high_first)) [])))
    by (vm_compute; left; reflexivity).
  split; [exact H|].
  exact (proj1 (search_partial_chronology _ _ high_first_wave H)).
Defined.
